(** * Slack thread archiver: a shallow embedding of [bedrockIntegration.py]

    The development follows the source file function by function:
    the text normalizer ([normalize_slack_text]), the watermark resolver
    ([get_latest_timestamp]), the history paginator and the thread
    reconstructor (the two halves of [fetch_channel_history]) and the
    chunked archive writer ([save_to_s3]).

    Python [str] values are modelled as [string], read as the UTF-8
    encoding of the text; Python [int] as [Z]; dictionaries whose
    iteration order matters as association lists in insertion order. *)

From Stdlib Require Import List String Ascii NArith ZArith Lia Bool Arith
  Permutation Sorted DecimalString DecimalPos DecimalZ.
Import ListNotations.

Set Warnings "-register-all".

Local Open Scope list_scope.
Local Open Scope string_scope.

(** ** Python string primitives *)

Module PyStr.

(** [s.startswith(p)], which is what the scan of [str.replace] tests at
    every position. *)
Fixpoint startswith (p s : string) : bool :=
  match p, s with
  | EmptyString, _ => true
  | String a p', String b s' => if Ascii.eqb a b then startswith p' s' else false
  | String _ _, EmptyString => false
  end.

(** The scan of [s.replace(old, new)] for a non-empty [old]: left to
    right, the leftmost occurrence is replaced and the scan resumes just
    after it.  [skip] counts the characters of a matched occurrence that
    are still to be passed over. *)
Fixpoint replace_scan (old new : string) (skip : nat) (s : string) : string :=
  match s with
  | EmptyString => EmptyString
  | String c s' =>
      match skip with
      | S k => replace_scan old new k s'
      | O =>
          if startswith old s
          then new ++ replace_scan old new (String.length old - 1) s'
          else String c (replace_scan old new 0 s')
      end
  end.

(** [s.replace("", new)] puts [new] before every character and at the
    end. *)
Fixpoint intersperse (new s : string) : string :=
  match s with
  | EmptyString => new
  | String c s' => new ++ String c (intersperse new s')
  end.

(** [s.replace(old, new)]. *)
Definition replace (old new s : string) : string :=
  match old with
  | EmptyString => intersperse new s
  | String _ _ => replace_scan old new 0 s
  end.

(** [s.split(sep)] for a one-character separator: never empty. *)
Fixpoint split (sep : ascii) (s : string) : list string :=
  match s with
  | EmptyString => [EmptyString]
  | String c s' =>
      if Ascii.eqb c sep then EmptyString :: split sep s'
      else match split sep s' with
           | h :: t => String c h :: t
           | [] => [String c EmptyString]
           end
  end.

(** [c in s] for a character. *)
Fixpoint contains (c : ascii) (s : string) : bool :=
  match s with
  | EmptyString => false
  | String b s' => Ascii.eqb b c || contains c s'
  end.

End PyStr.

(** ** Text normalizer *)

(** [Dict[str, str]] in iteration (insertion) order; the keys of a Python
    dictionary are pairwise distinct. *)
Definition Users := list (string * string).

(** [users.get(k)]. *)
Fixpoint users_get (users : Users) (k : string) : option string :=
  match users with
  | [] => None
  | (id, name) :: rest => if String.eqb id k then Some name else users_get rest k
  end.

(** The mention token [f"<@{user_id}>"]. *)
Definition mention (user_id : string) : string := "<@" ++ user_id ++ ">".

(** The replacement [f"@{user_name}"]. *)
Definition at_name (user_name : string) : string := "@" ++ user_name.

(** [normalize_slack_text]: one [str.replace] per entry of [users], in
    iteration order, each applied to the result of the previous one. *)
Definition normalize_slack_text (text : string) (users : Users) : string :=
  fold_left
    (fun text '(user_id, user_name) =>
       PyStr.replace (mention user_id) (at_name user_name) text)
    users text.

(** ** Python numbers as text *)

(** [str(n)] for an [int]. *)
Definition str_int (n : Z) : string := NilZero.string_of_int (Z.to_int n).

(** The exception the modelled code can raise and does not catch. *)
Inductive exn := IndexError.

(** ** JSON documents and [json.dumps] *)

Module Json.

Inductive value :=
| Str (s : string)
| Arr (items : list value)
| Obj (members : list (string * value)).

Definition dquote : ascii := "034"%char.
Definition newline : ascii := "010"%char.
Definition quoted (s : string) : string := String dquote (s ++ String dquote "").

Definition hex_digit (n : nat) : ascii :=
  if Nat.ltb n 10 then ascii_of_nat (48 + n) else ascii_of_nat (87 + n).

(** [ESCAPE_DCT] of [json.encoder] for one character when
    [ensure_ascii=False]: the quote, the backslash and the control
    characters below 0x20 are escaped, every other character (0x7f and
    all non-ASCII text included) is written as it is. *)
Definition escape_char (c : ascii) : string :=
  let n := nat_of_ascii c in
  if Ascii.eqb c dquote then String "\" (String dquote "")
  else if Ascii.eqb c "\" then "\\"
  else if Nat.eqb n 8 then "\b"
  else if Nat.eqb n 9 then "\t"
  else if Nat.eqb n 10 then "\n"
  else if Nat.eqb n 12 then "\f"
  else if Nat.eqb n 13 then "\r"
  else if Nat.ltb n 32 then "\u00" ++ String (hex_digit (n / 16)) (String (hex_digit (n mod 16)) "")
  else String c "".

Fixpoint escape (s : string) : string :=
  match s with
  | EmptyString => EmptyString
  | String c s' => escape_char c ++ escape s'
  end.

(** [sep.join(items)]. *)
Fixpoint join (sep : string) (items : list string) : string :=
  match items with
  | [] => ""
  | [x] => x
  | x :: rest => x ++ sep ++ join sep rest
  end.

(** [json.dumps(v, ensure_ascii=False)]: item separator [", "], key
    separator [": "], no line breaks. *)
Fixpoint dumps (v : value) : string :=
  match v with
  | Str s => quoted (escape s)
  | Arr items => "[" ++ join ", " (map dumps items) ++ "]"
  | Obj members =>
      "{" ++ join ", " (map (fun kv => quoted (escape (fst kv)) ++ ": " ++ dumps (snd kv)) members)
          ++ "}"
  end.

Fixpoint spaces (n : nat) : string :=
  match n with O => "" | S k => String " " (spaces k) end.

(** The line break written before an item at nesting depth [level]. *)
Definition break (level : nat) : string := String newline (spaces (2 * level)).

(** [json.dumps(v, ensure_ascii=False, indent=2)] at nesting depth
    [level]: item separator [","], key separator [": "], every item of a
    non-empty container on a line of its own. *)
Fixpoint dumps_indent (level : nat) (v : value) : string :=
  match v with
  | Str s => quoted (escape s)
  | Arr [] => "[]"
  | Arr items =>
      "[" ++ break (S level)
          ++ join ("," ++ break (S level)) (map (dumps_indent (S level)) items)
          ++ break level ++ "]"
  | Obj [] => "{}"
  | Obj members =>
      "{" ++ break (S level)
          ++ join ("," ++ break (S level))
               (map (fun kv => quoted (escape (fst kv)) ++ ": " ++ dumps_indent (S level) (snd kv))
                    members)
          ++ break level ++ "}"
  end.

(** [len(text.encode('utf-8'))]. *)
Definition byte_len (s : string) : Z := Z.of_nat (String.length s).

End Json.

(** ** Data model *)

(** A raw message of the chat API: a dictionary in which every key but
    ["ts"] may be absent. *)
Record Message := {
  ts : string;
  user : option string;
  text : option string;
  thread_ts : option string;
  reply_broadcast : option bool
}.

(** One entry of a Topic's ["messages"]. *)
Record TopicMessage := {
  tm_user : string;
  tm_text : string;
  tm_datetime : string
}.

(** One entry of [structured_data]. *)
Record Topic := {
  topic : string;
  topic_messages : list TopicMessage
}.

(** The dictionaries as [json.dumps] sees them, keys in insertion order. *)
Definition topic_message_json (m : TopicMessage) : Json.value :=
  Json.Obj [("user", Json.Str (tm_user m));
            ("text", Json.Str (tm_text m));
            ("datetime", Json.Str (tm_datetime m))].

Definition topic_json (t : Topic) : Json.value :=
  Json.Obj [("topic", Json.Str (topic t));
            ("messages", Json.Arr (map topic_message_json (topic_messages t)))].

(** Keyword arguments of [client.conversations_history]. *)
Record HistoryParams := {
  channel : string;
  limit : Z;
  latest : string;
  oldest : option string
}.

Record HistoryResponse := {
  messages : list Message;
  has_more : bool
}.

(** Keyword arguments of [s3.put_object]. *)
Record PutRequest := {
  Bucket : string;
  Key : string;
  Body : string;
  ContentType : string
}.

(** ** The outside world

    Every call that leaves the process is recorded, in the order made, in
    a trace; what a collaborator answers may depend on everything that
    happened before, so each one is a function of the trace so far. *)

Inductive Event :=
| EvNow
| EvHistory (params : HistoryParams)
| EvReplies (channel_id thread : string)
| EvListObjects (bucket key_prefix : string)
| EvPutObject (request : PutRequest)
| EvPrint (line : string).

Definition Trace := list Event.

(** The collaborators and the library functions whose results the code
    only passes along.  Platform timestamps are decimal-second strings, on
    which [float] does not raise; floating-point values stay abstract. *)
Class Platform := {
  float : Type;
  (** [float(ts)] *)
  py_float : string -> float;
  (** [str(x)] *)
  str_float : float -> string;
  (** [int(x)] *)
  int_float : float -> Z;
  (** [datetime.fromtimestamp(x).isoformat()] *)
  isoformat : float -> string;
  (** [int(s)], [None] when it raises [ValueError] *)
  py_int : string -> option Z;
  (** [hashlib.md5(s.encode()).hexdigest()] *)
  md5_hexdigest : string -> string;
  (** [datetime.now().timestamp()] *)
  now_timestamp : Trace -> float;
  (** [client.conversations_history], called with the keyword arguments *)
  conversations_history : Trace -> HistoryParams -> HistoryResponse;
  (** [client.conversations_replies(channel=..., ts=...)["messages"]] *)
  conversations_replies : Trace -> string -> string -> list Message;
  (** [s3.list_objects_v2(Bucket=..., Prefix=...)]: the keys of
      ["Contents"], [None] when the response has no such entry *)
  list_objects_v2 : Trace -> string -> string -> option (list string);
  (** [os.environ["S3_NAME"]] *)
  bucket_name : string
}.

(** How a call ends: with a value, with an exception, or not within the
    number of loop iterations allowed. *)
Inductive outcome (A : Type) :=
| Returned (a : A) (tr : Trace)
| Raised (e : exn) (tr : Trace)
| OutOfFuel.
Arguments Returned {A} a tr.
Arguments Raised {A} e tr.
Arguments OutOfFuel {A}.

Definition MiB : Z := (1024 ^ 2)%Z.
Definition MAX_FILE_SIZE : Z := (10 * MiB)%Z.

(** [xs[-1]]. *)
Fixpoint last_item {A} (xs : list A) : option A :=
  match xs with
  | [] => None
  | [x] => Some x
  | _ :: rest => last_item rest
  end.

(** [max(xs)] on a non-empty list of integers. *)
Definition py_max (x : Z) (xs : list Z) : Z := fold_left Z.max xs x.

Section Archiver.

Context {P : Platform}.

(** *** [generate_file_name] *)
Definition generate_file_name (channel_name channel_id : string) (tr : Trace)
  : string * Trace :=
  let timestamp := int_float (now_timestamp tr) in
  let hash_value :=
    md5_hexdigest (channel_name ++ "_" ++ channel_id ++ "_" ++ str_int timestamp) in
  ("slack_history/" ++ channel_name ++ "/" ++ channel_id ++ "/"
     ++ str_int timestamp ++ "_" ++ hash_value ++ ".json",
   (tr ++ [EvNow])%list).

(** *** [fetch_thread_replies]: every reply gets its ["datetime"]. *)
Definition fetch_thread_replies (channel_id thread : string) (tr : Trace)
  : list (Message * string) * Trace :=
  let replies := conversations_replies tr channel_id thread in
  (map (fun reply => (reply, isoformat (py_float (ts reply)))) replies,
   (tr ++ [EvReplies channel_id thread])%list).

(** *** [fetch_channel_history], first half: the pagination loop *)

(** The [params] dictionary of one iteration; [if start_time:] is false
    for [None] and for zero.  The caller passes the [int] watermark. *)
Definition history_params (channel_id : string) (start_time : option Z)
    (latest_ts : float) : HistoryParams :=
  {| channel := channel_id;
     limit := 1000;
     latest := str_float latest_ts;
     oldest := match start_time with
               | Some t => if Z.eqb t 0 then None else Some (str_int t)
               | None => None
               end |}.

(** [while True:] with at most [fuel] iterations. *)
Fixpoint history_loop (fuel : nat) (channel_id : string) (start_time : option Z)
    (latest_ts : float) (msgs : list Message) (tr : Trace)
  : outcome (list Message) :=
  match fuel with
  | O => OutOfFuel
  | S fuel' =>
      let params := history_params channel_id start_time latest_ts in
      let response := conversations_history tr params in
      let tr := (tr ++ [EvHistory params])%list in
      let msgs := (msgs ++ messages response)%list in
      if negb (has_more response) then Returned msgs tr
      else match last_item (messages response) with
           | None => Raised IndexError tr
           | Some m => history_loop fuel' channel_id start_time (py_float (ts m)) msgs tr
           end
  end.

Definition fetch_history_pages (fuel : nat) (channel_id : string)
    (start_time : option Z) (tr : Trace) : outcome (list Message) :=
  let latest_ts := now_timestamp tr in
  history_loop fuel channel_id start_time latest_ts [] (tr ++ [EvNow])%list.

(** *** [fetch_channel_history], second half: the threads *)

(** [users.get(message.get("user", "unknown"), "unknown")] *)
Definition user_name (users : Users) (m : Message) : string :=
  match users_get users (match user m with Some u => u | None => "unknown" end) with
  | Some name => name
  | None => "unknown"
  end.

(** [normalize_slack_text(message.get("text", ""), users)] *)
Definition message_text (users : Users) (m : Message) : string :=
  normalize_slack_text (match text m with Some t => t | None => "" end) users.

(** The entry built for the thread root in [topic_data["messages"]]. *)
Definition root_entry (users : Users) (m : Message) : TopicMessage :=
  {| tm_user := user_name users m;
     tm_text := message_text users m;
     tm_datetime := isoformat (py_float (ts m)) |}.

(** The entry appended for a reply, which carries its ["datetime"]. *)
Definition reply_entry (users : Users) (reply : Message * string) : TopicMessage :=
  {| tm_user := user_name users (fst reply);
     tm_text := message_text users (fst reply);
     tm_datetime := snd reply |}.

(** ["reply_broadcast" in message and message["reply_broadcast"]] *)
Definition is_broadcast (m : Message) : bool :=
  match reply_broadcast m with Some b => b | None => false end.

(** ["thread_ts" in message and message["thread_ts"] == message["ts"]] *)
Definition is_thread_root (m : Message) : bool :=
  match thread_ts m with Some t => String.eqb t (ts m) | None => false end.

(** The body of [for message in messages:]. *)
Definition structure_message (channel_id : string) (users : Users) (m : Message)
    (acc : list Topic * Trace) : list Topic * Trace :=
  let '(structured_data, tr) := acc in
  if is_broadcast m then (structured_data, tr)
  else if is_thread_root m then
    let '(thread_replies, tr) := fetch_thread_replies channel_id (ts m) tr in
    let topic_data :=
      {| topic := message_text users m;
         topic_messages := root_entry users m :: map (reply_entry users) (tl thread_replies) |} in
    ((structured_data ++ [topic_data])%list, tr)
  else (structured_data, tr).

Definition structure_messages (channel_id : string) (users : Users)
    (msgs : list Message) (tr : Trace) : list Topic * Trace :=
  fold_left (fun acc m => structure_message channel_id users m acc) msgs ([], tr).

Definition fetch_channel_history (fuel : nat) (channel_id : string) (users : Users)
    (start_time : option Z) (tr : Trace) : outcome (list Topic) :=
  match fetch_history_pages fuel channel_id start_time tr with
  | Returned msgs tr =>
      let '(structured_data, tr) := structure_messages channel_id users msgs tr in
      Returned structured_data tr
  | Raised e tr => Raised e tr
  | OutOfFuel => OutOfFuel
  end.

(** *** [get_latest_timestamp] *)

(** The body of [for obj in response["Contents"]:]; [except ValueError:
    pass] takes the case where [int] raises, an index out of range would
    leave the loop. *)
Definition collect_timestamp (key : string) (acc : exn + list Z) : exn + list Z :=
  match acc with
  | inl e => inl e
  | inr timestamps =>
      match last_item (PyStr.split "/" key) with
      | None => inl IndexError
      | Some file_name =>
          match PyStr.split "_" file_name with
          | [] => inl IndexError
          | segment :: _ =>
              match py_int segment with
              | Some timestamp => inr (timestamps ++ [timestamp])%list
              | None => inr timestamps
              end
          end
      end
  end.

Definition get_latest_timestamp (channel_id channel_name : string) (tr : Trace)
  : outcome (option Z) :=
  let key_prefix := "slack_history/" ++ channel_name ++ "/" ++ channel_id ++ "/" in
  let response := list_objects_v2 tr bucket_name key_prefix in
  let tr := (tr ++ [EvListObjects bucket_name key_prefix])%list in
  match response with
  | None => Returned None tr
  | Some contents =>
      match fold_left (fun acc key => collect_timestamp key acc) contents (inr []) with
      | inl e => Raised e tr
      | inr [] => Returned None tr
      | inr (t :: timestamps) => Returned (Some (py_max t timestamps)) tr
      end
  end.

(** *** [save_to_s3] *)

(** [len(json.dumps(entry, ensure_ascii=False).encode('utf-8'))] *)
Definition entry_size (entry : Topic) : Z :=
  Json.byte_len (Json.dumps (topic_json entry)).

(** [json.dumps(file_data, ensure_ascii=False, indent=2)] *)
Definition file_body (file_data : list Topic) : string :=
  Json.dumps_indent 0 (Json.Arr (map topic_json file_data)).

(** One flush: a fresh key, one [put_object], one [print]. *)
Definition put_file (channel_id channel_name : string) (file_data : list Topic)
    (tr : Trace) : Trace :=
  let '(file_name, tr) := generate_file_name channel_name channel_id tr in
  (tr ++ [EvPutObject {| Bucket := bucket_name;
                         Key := file_name;
                         Body := file_body file_data;
                         ContentType := "application/json" |};
          EvPrint ("Saved to S3: " ++ file_name)])%list.

(** The loop state: [total_size], [file_data] and the trace. *)
Record Writer := {
  total_size : Z;
  file_data : list Topic;
  written : Trace
}.

(** The body of [for entry in data:]. *)
Definition save_entry (channel_id channel_name : string) (w : Writer) (entry : Topic)
  : Writer :=
  let size := entry_size entry in
  let w :=
    if (total_size w + size >? MAX_FILE_SIZE)%Z && negb (match file_data w with [] => true | _ => false end)
    then {| total_size := 0;
            file_data := [];
            written := put_file channel_id channel_name (file_data w) (written w) |}
    else w in
  {| total_size := (total_size w + size)%Z;
     file_data := (file_data w ++ [entry])%list;
     written := written w |}.

Definition save_to_s3 (data : list Topic) (channel_id channel_name : string)
    (tr : Trace) : Trace :=
  let w := fold_left (save_entry channel_id channel_name) data
             {| total_size := 0; file_data := []; written := tr |} in
  match file_data w with
  | [] => written w
  | _ => put_file channel_id channel_name (file_data w) (written w)
  end.

End Archiver.

(** The [put_object] calls of a trace, in the order made. *)
Fixpoint puts (tr : Trace) : list PutRequest :=
  match tr with
  | [] => []
  | EvPutObject r :: rest => r :: puts rest
  | _ :: rest => puts rest
  end.

(** The [conversations_history] calls of a trace, in the order made. *)
Fixpoint history_calls (tr : Trace) : list HistoryParams :=
  match tr with
  | [] => []
  | EvHistory p :: rest => p :: history_calls rest
  | _ :: rest => history_calls rest
  end.

(** ** Vocabulary of the statements *)

(** A text cut into pieces: literal text, or a bracketed span [<...>]
    such as a mention, a link or a channel reference. *)
Inductive Piece :=
| Lit (s : string)
| Angle (content : string).

Definition render_piece (p : Piece) : string :=
  match p with
  | Lit s => s
  | Angle content => "<" ++ content ++ ">"
  end.

Fixpoint render (ps : list Piece) : string :=
  match ps with
  | [] => ""
  | p :: rest => render_piece p ++ render rest
  end.

(** The piece that renders as the mention token of [user_id]. *)
Definition Mention (user_id : string) : Piece := Angle ("@" ++ user_id).

(** What a piece should read after normalization: a mention of a known
    id becomes [@name], everything else stays. *)
Definition mentioned (content : string) : option string :=
  match content with
  | String c user_id => if Ascii.eqb c "@" then Some user_id else None
  | EmptyString => None
  end.

Definition expand_piece (users : Users) (p : Piece) : string :=
  match p with
  | Lit s => s
  | Angle content =>
      match mentioned content with
      | Some user_id =>
          match users_get users user_id with
          | Some name => at_name name
          | None => render_piece p
          end
      | None => render_piece p
      end
  end.

Fixpoint expand (users : Users) (ps : list Piece) : string :=
  match ps with
  | [] => ""
  | p :: rest => expand_piece users p ++ expand users rest
  end.

Definition no_open (s : string) : bool := negb (PyStr.contains "<" s).
Definition no_angle (s : string) : bool :=
  negb (PyStr.contains "<" s) && negb (PyStr.contains ">" s).

(** Literal text holds no [<]; a bracketed span holds no bracket. *)
Definition piece_ok (p : Piece) : bool :=
  match p with
  | Lit s => no_open s
  | Angle content => no_angle content
  end.

(** Ids hold no bracket and names hold no [<]. *)
Definition users_ok (users : Users) : bool :=
  forallb (fun entry => no_angle (fst entry) && no_open (snd entry)) users.

(** Order of ISO-8601 texts of one format, which is the order of [str]. *)
Definition datetime_lt (a b : string) : Prop := String.ltb a b = true.

(** The part of a key after its last [/], and the part of a file name
    before its first [_]. *)
Fixpoint before_first (sep : ascii) (s : string) : string :=
  match s with
  | EmptyString => EmptyString
  | String c s' => if Ascii.eqb c sep then EmptyString else String c (before_first sep s')
  end.

Fixpoint after_last (sep : ascii) (s : string) : string :=
  match s with
  | EmptyString => EmptyString
  | String c s' => if PyStr.contains sep s then after_last sep s' else s
  end.

Definition leading_segment (key : string) : string :=
  before_first "_" (after_last "/" key).

(** ** A scripted platform, for running the model on concrete inputs *)

Module Script.

Definition is_space (c : ascii) : bool :=
  let n := nat_of_ascii c in
  (Nat.leb 9 n && Nat.leb n 13) || (Nat.leb 28 n && Nat.leb n 32).

Fixpoint lstrip (s : string) : string :=
  match s with
  | String c s' => if is_space c then lstrip s' else s
  | EmptyString => EmptyString
  end.

Fixpoint rstrip (s : string) : string :=
  match s with
  | EmptyString => EmptyString
  | String c s' =>
      match rstrip s' with
      | EmptyString => if is_space c then EmptyString else String c EmptyString
      | r => String c r
      end
  end.

Definition digit (c : ascii) : option Z :=
  let n := nat_of_ascii c in
  if Nat.leb 48 n && Nat.leb n 57 then Some (Z.of_nat (n - 48)) else None.

(** Decimal digits, single underscores allowed between two digits. *)
Fixpoint digits (acc : Z) (after_digit : bool) (s : string) : option Z :=
  match s with
  | EmptyString => if after_digit then Some acc else None
  | String c s' =>
      if Ascii.eqb c "_" then (if after_digit then digits acc false s' else None)
      else match digit c with
           | Some d => digits (10 * acc + d)%Z true s'
           | None => None
           end
  end.

(** [int(s)] on ASCII text. *)
Definition ascii_int (s : string) : option Z :=
  let body := rstrip (lstrip s) in
  match body with
  | String "-" r => option_map Z.opp (digits 0 false r)
  | String "+" r => digits 0 false r
  | _ => digits 0 false body
  end.

(** The number of history pages already served. *)
Definition served (tr : Trace) : nat := List.length (history_calls tr).

(** A platform that serves the history pages of a script one per call,
    the reply list of a thread by its timestamp and a fixed object
    listing; a float is kept as its text. *)
Definition platform (pages : list HistoryResponse) (threads : string -> list Message)
    (listing : option (list string)) : Platform :=
  {| float := string;
     py_float := fun s => s;
     str_float := fun x => x;
     int_float := fun x => match ascii_int (before_first "." x) with
                           | Some z => z
                           | None => 0%Z
                           end;
     isoformat := fun x => x;
     py_int := ascii_int;
     md5_hexdigest := fun s => s;
     now_timestamp := fun _ => "1700000000.0";
     conversations_history := fun tr _ =>
       nth (served tr) pages {| messages := []; has_more := false |};
     conversations_replies := fun _ _ thread => threads thread;
     list_objects_v2 := fun _ _ _ => listing;
     bucket_name := "bucket" |}.

Definition msg (t : string) (thread : option string) (flag : option bool) : Message :=
  {| ts := t; user := Some "U1"; text := Some ("m" ++ t);
     thread_ts := thread; reply_broadcast := flag |}.

(** A thread: its root and three replies. *)
Definition root1 : Message := msg "1" (Some "1") None.
Definition reply2 : Message := msg "2" (Some "1") None.
Definition reply3 : Message := msg "3" (Some "1") None.
Definition reply4 : Message := msg "4" (Some "1") None.

(** The same root and the same reply, flagged as broadcast replies. *)
Definition flagged_root1 : Message := msg "1" (Some "1") (Some true).
Definition flagged_reply2 : Message := msg "2" (Some "1") (Some true).

Definition thread_of (replies : list Message) (thread : string) : list Message :=
  if String.eqb thread "1" then root1 :: replies else [].

(** A history of two pages, and one whose first page is empty although
    it reports a further page. *)
Definition two_pages : list HistoryResponse :=
  [{| messages := [msg "30" None None; root1]; has_more := true |};
   {| messages := [msg "0" None None]; has_more := false |}].

Definition hollow_pages : list HistoryResponse :=
  [{| messages := []; has_more := true |}].

(** [c * n] *)
Fixpoint filler (c : ascii) (n : nat) : string :=
  match n with O => EmptyString | S k => String c (filler c k) end.

(** A Topic of one message whose entry size is 1 KiB, and 10240 of them:
    10 MiB by the writer's account. *)
Definition kib_topic : Topic :=
  let body := filler "x" 462 in
  {| topic := body;
     topic_messages :=
       [{| tm_user := "alice"; tm_text := body; tm_datetime := "2024-05-01T09:30:00.500000" |}] |}.

Definition full_batch : list Topic := repeat kib_topic (N.to_nat 10240).

(** One Topic more: over the budget by the writer's account. *)
Definition over_batch : list Topic := repeat kib_topic (N.to_nat 10241).

End Script.

(** The integers read off the leading segments of a listing, in order. *)
Definition leading_timestamps {P : Platform} (contents : list string) : list Z :=
  flat_map (fun key => match py_int (leading_segment key) with
                       | Some t => [t]
                       | None => []
                       end) contents.

(** The page the loop would be served [n] iterations from now if it went
    on after every page; there is none once a page before it is empty. *)
Fixpoint page_at {P : Platform} (n : nat) (channel_id : string) (start_time : option Z)
    (latest_ts : float) (tr : Trace) : option HistoryResponse :=
  let params := history_params channel_id start_time latest_ts in
  let response := conversations_history tr params in
  match n with
  | O => Some response
  | S n' =>
      match last_item (messages response) with
      | None => None
      | Some m =>
          page_at n' channel_id start_time (py_float (ts m)) (tr ++ [EvHistory params])%list
      end
  end.

(** A history message for which the reconstructor builds a Topic. *)
Definition emits (m : Message) : bool := negb (is_broadcast m) && is_thread_root m.

(** The Topic built for the history message [m] when the trace is [tr]. *)
Definition thread_topic {P : Platform} (channel_id : string) (users : Users)
    (m : Message) (tr : Trace) : Topic :=
  {| topic := message_text users m;
     topic_messages :=
       root_entry users m
       :: map (reply_entry users) (tl (fst (fetch_thread_replies channel_id (ts m) tr))) |}.

(** The ["datetime"] that [fetch_thread_replies] gives a message. *)
Definition datetime_of {P : Platform} (m : Message) : string :=
  isoformat (py_float (ts m)).

(** The size the writer accounts a batch for: the sum of its entry sizes. *)
Definition accounted (batch : list Topic) : Z :=
  fold_right (fun entry sum => (entry_size entry + sum)%Z) 0%Z batch.

Definition head_size (batch : list Topic) : Z :=
  match batch with
  | entry :: _ => entry_size entry
  | [] => 0%Z
  end.

(** A batch is within budget, or it is a single entry. *)
Definition within_budget (batch : list Topic) : Prop :=
  (accounted batch <= MAX_FILE_SIZE)%Z \/ List.length batch = 1.

(** No batch could have taken the first entry of the next one. *)
Fixpoint greedy (batches : list (list Topic)) : Prop :=
  match batches with
  | [] => True
  | batch :: rest =>
      match rest with
      | [] => True
      | next :: _ => (accounted batch + head_size next > MAX_FILE_SIZE)%Z
      end /\ greedy rest
  end.

(** The batches that the loop of [save_to_s3] and its final flush write
    when the loop is entered with the pending batch [pending]. *)
Fixpoint chunk (pending : list Topic) (data : list Topic) : list (list Topic) :=
  match data with
  | [] => match pending with [] => [] | _ => [pending] end
  | entry :: rest =>
      if (accounted pending + entry_size entry >? MAX_FILE_SIZE)%Z
         && negb (match pending with [] => true | _ => false end)
      then pending :: chunk [entry] rest
      else chunk (pending ++ [entry])%list rest
  end.

(** What the final [if file_data:] of [save_to_s3] does. *)
Definition finish {P : Platform} (channel_id channel_name : string) (w : Writer) : Trace :=
  match file_data w with
  | [] => written w
  | _ => put_file channel_id channel_name (file_data w) (written w)
  end.

(** A request to the configured bucket, with the JSON content type. *)
Definition ours {P : Platform} (request : PutRequest) : Prop :=
  Bucket request = bucket_name /\ ContentType request = "application/json".

(** What one [replace(mention user_id, new)] does to a piece. *)
Definition replace_piece (user_id new : string) (p : Piece) : Piece :=
  match p with
  | Lit s => Lit s
  | Angle content => if String.eqb content ("@" ++ user_id) then Lit new else p
  end.

(** ** The user directory and the run *)

(** An entry of [response["members"]] of [client.users_list()]. *)
Record Member := {
  member_id : string;
  member_name : string
}.

(** An entry of [response["channels"]] of [client.conversations_list()];
    ["name"] may be absent. *)
Record Channel := {
  chan_id : string;
  chan_name : option string;
  is_member : bool
}.

(** The collaborators of [fetch_users] and [main].  The two listings
    answer from the trace current when they are asked;
    [SLACK_CHANNEL_ID] is [None] when the variable is not set. *)
Class Directory := {
  users_list : Trace -> list Member;
  conversations_list : Trace -> list Channel;
  SLACK_CHANNEL_ID : option string
}.

(** [d[k] = v]: an existing key keeps its place and takes the new value,
    a new key goes last. *)
Fixpoint dict_set (d : Users) (k v : string) : Users :=
  match d with
  | [] => [(k, v)]
  | (k', v') :: rest =>
      if String.eqb k' k then (k', v) :: rest else (k', v') :: dict_set rest k v
  end.

(** What ends [main] early: [os.environ[...]] on an unset variable, or
    an exception of a callee, which [main] does not catch. *)
Inductive run_exn :=
| KeyError
| Uncaught (e : exn).

(** How a run of [main] ends. *)
Inductive run :=
| Finished (tr : Trace)
| Failed (e : run_exn) (tr : Trace)
| Unfinished.

Section Orchestrator.

Context {P : Platform} {D : Directory}.

(** *** [fetch_users]: the dictionary comprehension over the members. *)
Definition fetch_users (tr : Trace) : Users :=
  fold_left (fun users u => dict_set users (member_id u) (member_name u))
            (users_list tr) [].

(** The statements of [main] under [if channel_id == os.environ[...]:]. *)
Definition archive_channel (fuel : nat) (users : Users)
    (channel_id channel_name : string) (tr : Trace) : run :=
  match get_latest_timestamp channel_id channel_name tr with
  | Returned latest_ts tr =>
      let start_time :=
        match latest_ts with
        | Some t => if Z.eqb t 0 then None else Some t
        | None => None
        end in
      match fetch_channel_history fuel channel_id users start_time tr with
      | Returned history tr => Finished (save_to_s3 history channel_id channel_name tr)
      | Raised e tr => Failed (Uncaught e) tr
      | OutOfFuel => Unfinished
      end
  | Raised e tr => Failed (Uncaught e) tr
  | OutOfFuel => Unfinished
  end.

(** [for channel in response["channels"]:] *)
Fixpoint main_loop (fuel : nat) (users : Users) (channels : list Channel) (tr : Trace)
  : run :=
  match channels with
  | [] => Finished tr
  | c :: rest =>
      if is_member c then
        match SLACK_CHANNEL_ID with
        | None => Failed KeyError tr
        | Some target =>
            if String.eqb (chan_id c) target then
              let channel_name :=
                match chan_name c with Some n => n | None => "unknown_channel" end in
              match archive_channel fuel users (chan_id c) channel_name tr with
              | Finished tr => main_loop fuel users rest tr
              | stopped => stopped
              end
            else main_loop fuel users rest tr
        end
      else main_loop fuel users rest tr
  end.

(** *** [main]; every pagination loop gets [fuel] iterations. *)
Definition main (fuel : nat) (tr : Trace) : run :=
  let users := fetch_users tr in
  let channels := conversations_list tr in
  main_loop fuel users channels tr.

End Orchestrator.

(** The key that [generate_file_name] forms for a capture second. *)
Definition file_key {P : Platform} (channel_name channel_id : string) (second : Z) : string :=
  "slack_history/" ++ channel_name ++ "/" ++ channel_id ++ "/"
    ++ str_int second ++ "_"
    ++ md5_hexdigest (channel_name ++ "_" ++ channel_id ++ "_" ++ str_int second)
    ++ ".json".

(** The prefix under which [get_latest_timestamp] lists a channel. *)
Definition key_prefix_of (channel_name channel_id : string) : string :=
  "slack_history/" ++ channel_name ++ "/" ++ channel_id ++ "/".

(** What [if start_time:] lets through. *)
Definition lower_bound (start_time : option Z) : option string :=
  match start_time with
  | Some t => if Z.eqb t 0 then None else Some (str_int t)
  | None => None
  end.

(** The [conversations_replies] calls of a trace, in the order made. *)
Fixpoint reply_calls (tr : Trace) : list (string * string) :=
  match tr with
  | [] => []
  | EvReplies channel_id thread :: rest => (channel_id, thread) :: reply_calls rest
  | _ :: rest => reply_calls rest
  end.

(** A mention of a known id settled into its replacement. *)
Definition settle (users : Users) (p : Piece) : Piece :=
  match p with
  | Lit s => Lit s
  | Angle content =>
      match mentioned content with
      | Some user_id =>
          match users_get users user_id with
          | Some name => Lit (at_name name)
          | None => p
          end
      | None => p
      end
  end.

(** The last member of a listing that has the id [k]. *)
Definition last_member (k : string) (members : list Member) : option Member :=
  find (fun u => String.eqb (member_id u) k) (rev members).

(** The request that a flush sends when the trace is [tr]. *)
Definition put_request {P : Platform} (channel_id channel_name : string)
    (batch : list Topic) (tr : Trace) : PutRequest :=
  {| Bucket := bucket_name;
     Key := fst (generate_file_name channel_name channel_id tr);
     Body := file_body batch;
     ContentType := "application/json" |}.

(** What a flush adds to the trace. *)
Definition flush_events (request : PutRequest) : Trace :=
  [EvNow; EvPutObject request; EvPrint ("Saved to S3: " ++ Key request)].

(** The watermark of a listing: the greatest integer read off a leading
    segment, if any. *)
Definition watermark_of {P : Platform} (contents : list string) : option Z :=
  match leading_timestamps contents with
  | [] => None
  | t :: timestamps => Some (py_max t timestamps)
  end.

(** The keys of the objects put so far into [bucket] under [key_prefix]. *)
Definition stored_keys (tr : Trace) (bucket key_prefix : string) : list string :=
  map Key (filter (fun request => String.eqb (Bucket request) bucket
                                  && PyStr.startswith key_prefix (Key request))
                  (puts tr)).

(** A storage that lists what was put, and leaves out ["Contents"] when
    there is nothing to list. *)
Definition listing_of (tr : Trace) (bucket key_prefix : string) : option (list string) :=
  match stored_keys tr bucket key_prefix with
  | [] => None
  | keys => Some keys
  end.

(** A scripted platform with such a storage; its clock stands still. *)
Definition live_platform (pages : list HistoryResponse) (threads : string -> list Message)
  : Platform :=
  {| float := Z;
     py_float := fun s => match Script.ascii_int (before_first "." s) with
                          | Some z => z
                          | None => 0%Z
                          end;
     str_float := fun x => str_int x ++ ".0";
     int_float := fun x => x;
     isoformat := fun x => str_int x;
     py_int := Script.ascii_int;
     md5_hexdigest := fun s => "0cc175b9c0f1b6a831c399e269772661";
     now_timestamp := fun _ => 1700000000%Z;
     conversations_history := fun tr _ =>
       nth (Script.served tr) pages {| messages := []; has_more := false |};
     conversations_replies := fun _ _ thread => threads thread;
     list_objects_v2 := listing_of;
     bucket_name := "bucket" |}.

(** An object put by an earlier run. *)
Definition stored (key : string) : Event :=
  EvPutObject {| Bucket := "bucket"; Key := key; Body := "[]";
                 ContentType := "application/json" |}.

(** The answers that the history calls among the events [added] got,
    each from the trace as it stood when the call was made. *)
Fixpoint responses {P : Platform} (before added : Trace) : list HistoryResponse :=
  match added with
  | [] => []
  | e :: rest =>
      match e with
      | EvHistory params => [conversations_history before params]
      | _ => []
      end ++ responses (before ++ [e])%list rest
  end.

(** A call ended, by a return or by an exception, with the trace [tr']. *)
Definition ended {A : Type} (o : outcome A) (tr' : Trace) : Prop :=
  (exists a, o = Returned a tr') \/ (exists e, o = Raised e tr').

(** A request as the pagination loop forms it for a channel and a
    [start_time]. *)
Definition well_formed_request (channel_id : string) (start_time : option Z)
    (params : HistoryParams) : Prop :=
  channel params = channel_id /\ limit params = 1000%Z
  /\ oldest params = lower_bound start_time.

(** A scripted platform whose history never ends: every page holds one
    message and reports a further page. *)
Definition endless_platform : Platform :=
  {| float := string;
     py_float := fun s => s;
     str_float := fun x => x;
     int_float := fun _ => 0%Z;
     isoformat := fun x => x;
     py_int := Script.ascii_int;
     md5_hexdigest := fun s => s;
     now_timestamp := fun _ => "1700000000.0";
     conversations_history := fun _ _ =>
       {| messages := [Script.root1]; has_more := true |};
     conversations_replies := fun _ _ _ => [];
     list_objects_v2 := fun _ _ _ => None;
     bucket_name := "bucket" |}.

(** The reply fetch that the reconstructor makes for a thread root. *)
Definition reply_fetch (channel_id : string) (m : Message) : Event :=
  EvReplies channel_id (ts m).

(** The watermark that [get_latest_timestamp] finds for a channel when
    the trace is [tr]. *)
Definition resolved_watermark {P : Platform} (channel_id channel_name : string)
    (tr : Trace) : option Z :=
  match list_objects_v2 tr bucket_name (key_prefix_of channel_name channel_id) with
  | Some contents => watermark_of contents
  | None => None
  end.

(** [latest_ts if latest_ts else None] *)
Definition truthy (latest_ts : option Z) : option Z :=
  match latest_ts with
  | Some t => if Z.eqb t 0 then None else Some t
  | None => None
  end.

(** [channel.get("name", "unknown_channel")] *)
Definition name_of (c : Channel) : string :=
  match chan_name c with Some n => n | None => "unknown_channel" end.

(** A run ended, finished or failed, with the trace [tr']. *)
Definition stopped_at (r : run) (tr' : Trace) : Prop :=
  r = Finished tr' \/ exists e, r = Failed e tr'.

(** A directory for running [main] on concrete inputs. *)
Definition directory (members : list Member) (channels : list Channel)
    (target : option string) : Directory :=
  {| users_list := fun _ => members;
     conversations_list := fun _ => channels;
     SLACK_CHANNEL_ID := target |}.

(** * Properties *)

#[local] Arguments Ascii.eqb : simpl never.
#[local] Arguments String.eqb : simpl never.

(** ** The text normalizer *)

Section Normalizer.

Lemma startswith_refl_app (p t : string) : PyStr.startswith p (p ++ t) = true.
Proof.
  induction p as [|a p IH]; simpl; [reflexivity|].
  now rewrite Ascii.eqb_refl.
Qed.

(** A pattern and a span that both end at their first [>] agree as soon
    as one starts the other. *)
Lemma startswith_closed (u v t : string) :
  PyStr.contains ">" u = false ->
  PyStr.contains ">" v = false ->
  PyStr.startswith (u ++ ">") (v ++ ">" ++ t) = true ->
  u = v.
Proof.
  revert v; induction u as [|a u IH]; intros [|b v] Hu Hv H;
    cbn [PyStr.startswith PyStr.contains append] in *.
  - reflexivity.
  - apply orb_false_elim in Hv as [Hb _].
    destruct (Ascii.eqb_spec ">" b) as [<-|]; [|discriminate].
    now rewrite Ascii.eqb_refl in Hb.
  - apply orb_false_elim in Hu as [Ha _].
    destruct (Ascii.eqb_spec a ">") as [->|]; discriminate.
  - apply orb_false_elim in Hu as [_ Hu].
    apply orb_false_elim in Hv as [_ Hv].
    destruct (Ascii.eqb_spec a b) as [->|]; [|discriminate].
    f_equal; now apply IH.
Qed.

Lemma contains_app (c : ascii) (s t : string) :
  PyStr.contains c (s ++ t) = PyStr.contains c s || PyStr.contains c t.
Proof.
  induction s as [|b s IH]; simpl; [reflexivity|].
  now rewrite IH, orb_assoc.
Qed.

Lemma string_length_app (s t : string) :
  String.length (s ++ t) = String.length s + String.length t.
Proof. induction s; simpl; congruence. Qed.

Lemma app_assoc_s (s t u : string) : (s ++ t) ++ u = s ++ t ++ u.
Proof. induction s; simpl; congruence. Qed.

Lemma app_nil_r_s (s : string) : s ++ "" = s.
Proof. induction s; simpl; congruence. Qed.

Variable user_id : string.
Variable new : string.
Hypothesis id_ok : no_angle user_id = true.

Let old := mention user_id.

(** No occurrence of the token starts inside text without [<]. *)
Lemma replace_scan_plain (s t : string) :
  no_open s = true ->
  PyStr.replace_scan old new 0 (s ++ t) = s ++ PyStr.replace_scan old new 0 t.
Proof.
  unfold no_open. induction s as [|c s IH]; simpl; intros H; [reflexivity|].
  apply negb_true_iff, orb_false_elim in H as [Hc Hs].
  rewrite Ascii.eqb_sym in Hc. rewrite Hc.
  now rewrite IH by now rewrite Hs.
Qed.

(** The characters of a matched occurrence are passed over. *)
Lemma replace_scan_skip (u t : string) :
  PyStr.replace_scan old new (String.length u) (u ++ t)
  = PyStr.replace_scan old new 0 t.
Proof. induction u as [|c u IH]; simpl; [reflexivity | exact IH]. Qed.

Lemma replace_scan_angle (content t : string) :
  no_angle content = true ->
  PyStr.replace_scan old new 0 (render_piece (Angle content) ++ t)
  = render_piece (replace_piece user_id new (Angle content)) ++ PyStr.replace_scan old new 0 t.
Proof.
  intros Hc.
  apply andb_true_iff in Hc as [Hopen Hclose].
  pose proof id_ok as Hid. apply andb_true_iff in Hid as [_ Hid].
  apply negb_true_iff in Hclose, Hid.
  cbn [render_piece replace_piece].
  destruct (String.eqb_spec content ("@" ++ user_id)) as [->|Hne].
  - change ("<" ++ ("@" ++ user_id) ++ ">") with old.
    change (old ++ t) with (String "<" (String "@" (user_id ++ ">") ++ t)).
    cbn [PyStr.replace_scan].
    replace (PyStr.startswith old (String "<" (String "@" (user_id ++ ">") ++ t)))
      with true by (symmetry; apply (startswith_refl_app old t)).
    cbn [render_piece]. f_equal.
    replace (String.length old - 1) with (String.length (String "@" (user_id ++ ">")))
      by (unfold old, mention; simpl; lia).
    apply replace_scan_skip.
  - change (("<" ++ content ++ ">") ++ t) with (String "<" ((content ++ ">") ++ t)).
    cbn [PyStr.replace_scan].
    replace (PyStr.startswith old (String "<" ((content ++ ">") ++ t))) with false.
    + cbn [render_piece append]. f_equal. apply replace_scan_plain.
      unfold no_open. rewrite contains_app. simpl.
      apply negb_true_iff in Hopen. now rewrite Hopen.
    + symmetry. apply not_true_is_false. intros H.
      unfold old, mention in H. cbn [append PyStr.startswith] in H.
      rewrite Ascii.eqb_refl in H.
      apply Hne. symmetry.
      apply (startswith_closed ("@" ++ user_id) content t); [exact Hid | exact Hclose |].
      now rewrite app_assoc_s in H.
Qed.

Lemma replace_render (ps : list Piece) :
  forallb piece_ok ps = true ->
  PyStr.replace old new (render ps) = render (map (replace_piece user_id new) ps).
Proof.
  change (PyStr.replace old new (render ps)) with (PyStr.replace_scan old new 0 (render ps)).
  induction ps as [|p ps IH]; intros H; [reflexivity|].
  apply andb_true_iff in H as [Hp Hps].
  cbn [render map]. destruct p as [s|content].
  - cbn [render_piece replace_piece]. rewrite replace_scan_plain by exact Hp.
    now rewrite IH.
  - rewrite replace_scan_angle by exact Hp. now rewrite IH.
Qed.

Hypothesis new_ok : no_open new = true.

Lemma replace_piece_ok (ps : list Piece) :
  forallb piece_ok ps = true -> forallb piece_ok (map (replace_piece user_id new) ps) = true.
Proof.
  induction ps as [|p ps IH]; intros H; [reflexivity|].
  apply andb_true_iff in H as [Hp Hps]. cbn [map forallb].
  rewrite IH by exact Hps. rewrite andb_true_r.
  destruct p as [s|content]; [exact Hp|]. cbn [replace_piece].
  destruct (String.eqb content ("@" ++ user_id)); [exact new_ok | exact Hp].
Qed.

End Normalizer.

Lemma mentioned_spec (content user_id : string) :
  mentioned content = Some user_id <-> content = "@" ++ user_id.
Proof.
  destruct content as [|c rest]; cbn [mentioned append]; split; try discriminate.
  - destruct (Ascii.eqb_spec c "@") as [->|]; [|discriminate].
    now intros [= ->].
  - intros [= -> ->]. now rewrite Ascii.eqb_refl.
Qed.

Lemma expand_nil (ps : list Piece) : expand [] ps = render ps.
Proof.
  induction ps as [|p ps IH]; [reflexivity|].
  cbn [expand render]. rewrite IH. f_equal.
  destruct p as [s|content]; [reflexivity|].
  cbn [expand_piece users_get]. now destruct (mentioned content).
Qed.

Lemma expand_piece_cons (user_id name : string) (users : Users) (p : Piece) :
  expand_piece ((user_id, name) :: users) p
  = expand_piece users (replace_piece user_id (at_name name) p).
Proof.
  destruct p as [s|content]; [reflexivity|].
  cbn [replace_piece].
  destruct (String.eqb_spec content ("@" ++ user_id)) as [->|Hne].
  - cbn [expand_piece]. rewrite (proj2 (mentioned_spec _ user_id) eq_refl).
    cbn [users_get]. now rewrite String.eqb_refl.
  - cbn [expand_piece]. destruct (mentioned content) as [other|] eqn:Hm; [|reflexivity].
    apply mentioned_spec in Hm. cbn [users_get].
    destruct (String.eqb_spec user_id other) as [->|]; [contradiction | reflexivity].
Qed.

Lemma expand_cons (user_id name : string) (users : Users) (ps : list Piece) :
  expand ((user_id, name) :: users) ps
  = expand users (map (replace_piece user_id (at_name name)) ps).
Proof.
  induction ps as [|p ps IH]; [reflexivity|].
  cbn [expand map]. now rewrite IH, expand_piece_cons.
Qed.

Lemma at_name_no_open (name : string) : no_open name = true -> no_open (at_name name) = true.
Proof.
  unfold no_open, at_name. cbn [append PyStr.contains].
  now change (Ascii.eqb "@" "<") with false.
Qed.

(** On a text cut into well-formed pieces, the chain of replacements
    computes the piecewise expansion. *)
Lemma normalize_render (users : Users) (ps : list Piece) :
  users_ok users = true ->
  forallb piece_ok ps = true ->
  normalize_slack_text (render ps) users = expand users ps.
Proof.
  revert ps. induction users as [|[user_id name] users IH]; intros ps Hu Hps.
  - symmetry. apply expand_nil.
  - cbn [users_ok forallb fst snd] in Hu.
    apply andb_true_iff in Hu as [Hentry Hu].
    apply andb_true_iff in Hentry as [Hid Hname].
    unfold normalize_slack_text. cbn [fold_left].
    rewrite (replace_render user_id (at_name name) Hid ps Hps).
    rewrite expand_cons. apply IH; [exact Hu|].
    apply replace_piece_ok; [now apply at_name_no_open | exact Hps].
Qed.

Lemma users_get_perm (users users' : Users) (k : string) :
  NoDup (map fst users) -> Permutation users users' ->
  users_get users k = users_get users' k.
Proof.
  intros Hnd Hp. induction Hp as [|[i n] l l' Hp IH|[i n] [j m] l|l l' l'' H1 IH1 H2 IH2].
  - reflexivity.
  - cbn [users_get]. cbn [map fst] in Hnd. inversion Hnd; subst.
    now rewrite IH.
  - cbn [users_get]. cbn [map fst] in Hnd.
    inversion Hnd as [|? ? Hnotin _]; subst.
    destruct (String.eqb_spec j k) as [->|], (String.eqb_spec i k) as [->|];
      try reflexivity.
    exfalso. apply Hnotin. now left.
  - rewrite IH1 by exact Hnd. apply IH2.
    apply (Permutation_NoDup (Permutation_map fst H1) Hnd).
Qed.

Lemma expand_ext (users users' : Users) (ps : list Piece) :
  (forall k, users_get users k = users_get users' k) ->
  expand users ps = expand users' ps.
Proof.
  intros H. induction ps as [|p ps IH]; [reflexivity|].
  cbn [expand]. rewrite IH. f_equal.
  destruct p as [s|content]; [reflexivity|].
  cbn [expand_piece]. destruct (mentioned content); [|reflexivity].
  now rewrite H.
Qed.

Lemma users_ok_perm (users users' : Users) :
  Permutation users users' -> users_ok users = true -> users_ok users' = true.
Proof.
  unfold users_ok. intros Hp H. rewrite forallb_forall in *.
  intros e He. apply H. apply (Permutation_in e (Permutation_sym Hp) He).
Qed.

(** C3 (as amended). On every text made of literal pieces without [<]
    and bracketed spans without a bracket inside, and for every mapping
    whose ids hold no bracket and whose names hold no [<], the normalizer
    replaces each mention of a known id by [@name] and leaves every other
    piece, mentions of unknown ids included, as it is. *)
Theorem normalize_expands_mentions (users : Users) (ps : list Piece) :
  users_ok users = true ->
  forallb piece_ok ps = true ->
  normalize_slack_text (render ps) users = expand users ps.
Proof. exact (normalize_render users ps). Qed.

Lemma normalize_expands_mentions_witness :
  let users := [("U1", "alice")] in
  let ps := [Lit "hi "; Mention "U1"; Lit " and "; Mention "U2"] in
  users_ok users = true /\ forallb piece_ok ps = true /\
  normalize_slack_text "hi <@U1> and <@U2>" users = "hi @alice and <@U2>".
Proof.
  intros users ps. split; [reflexivity|]. split; [reflexivity|].
  exact (normalize_expands_mentions users ps eq_refl eq_refl).
Defined.

(** C3 as stated fails: inside [<...>] the replacement of one mention
    forms the token of another known id, which the next replacement
    rewrites; ["<<@U1>>"] becomes ["@carol"], not ["<@bob>"]. *)
Lemma normalize_chained_counterexample :
  ~ (forall (users : Users) (ps : list Piece),
        normalize_slack_text (render ps) users = expand users ps).
Proof.
  intros H.
  specialize (H [("U1", "bob"); ("bob", "carol")] [Lit "<"; Mention "U1"; Lit ">"]).
  vm_compute in H. discriminate H.
Qed.

(** C9 (as amended). On such texts and mappings the result does not
    depend on the iteration order of the mapping. *)
Theorem normalize_order_independent (users users' : Users) (ps : list Piece) :
  NoDup (map fst users) ->
  users_ok users = true ->
  forallb piece_ok ps = true ->
  Permutation users users' ->
  normalize_slack_text (render ps) users = normalize_slack_text (render ps) users'.
Proof.
  intros Hnd Hu Hps Hperm.
  rewrite (normalize_render users ps Hu Hps).
  rewrite (normalize_render users' ps (users_ok_perm users users' Hperm Hu) Hps).
  apply expand_ext. intros k. now apply users_get_perm.
Qed.

Lemma two_keys_nodup (a b : string) : a <> b -> NoDup [a; b].
Proof.
  intros Hab. constructor; [intros [H|[]]; now apply Hab | ].
  constructor; [intros [] | constructor].
Qed.

Lemma normalize_order_independent_witness :
  let users := [("U1", "alice"); ("U2", "bob")] in
  let users' := [("U2", "bob"); ("U1", "alice")] in
  normalize_slack_text "<@U2> meets <@U1>" users
  = normalize_slack_text "<@U2> meets <@U1>" users'.
Proof.
  intros users users'.
  refine (normalize_order_independent users users'
            [Mention "U2"; Lit " meets "; Mention "U1"] _ eq_refl eq_refl _).
  - apply two_keys_nodup. discriminate.
  - apply perm_swap.
Defined.

(** C9 as stated fails: with the entry for [U1] first the text
    ["<<@U1>>"] ends as ["@carol"], with the entry for [bob] first it ends
    as ["<@bob>"]. *)
Lemma normalize_order_counterexample :
  ~ (forall (text : string) (users users' : Users),
        NoDup (map fst users) ->
        Permutation users users' ->
        normalize_slack_text text users = normalize_slack_text text users').
Proof.
  intros H.
  specialize (H "<<@U1>>" [("U1", "bob"); ("bob", "carol")]
                [("bob", "carol"); ("U1", "bob")]).
  assert (Hne : normalize_slack_text "<<@U1>>" [("U1", "bob"); ("bob", "carol")]
                <> normalize_slack_text "<<@U1>>" [("bob", "carol"); ("U1", "bob")])
    by (vm_compute; discriminate).
  apply Hne, H; [apply two_keys_nodup; discriminate | apply perm_swap].
Qed.

(** ** The watermark resolver *)

Section Watermark.

Context {P : Platform}.

Lemma split_head (sep : ascii) (s : string) :
  exists rest, PyStr.split sep s = before_first sep s :: rest.
Proof.
  induction s as [|c s [rest IH]]; cbn [PyStr.split before_first].
  - now exists [].
  - destruct (Ascii.eqb c sep); [now eexists|].
    rewrite IH. now eexists.
Qed.

Lemma split_without_sep (sep : ascii) (s : string) :
  PyStr.contains sep s = false -> PyStr.split sep s = [s].
Proof.
  induction s as [|c s IH]; cbn [PyStr.split PyStr.contains]; [reflexivity|].
  intros H. apply orb_false_elim in H as [Hc Hs].
  now rewrite Hc, IH.
Qed.

Lemma split_with_sep (sep : ascii) (s : string) :
  PyStr.contains sep s = true ->
  exists h x rest, PyStr.split sep s = h :: x :: rest.
Proof.
  induction s as [|c s IH]; cbn [PyStr.split PyStr.contains]; [discriminate|].
  destruct (Ascii.eqb c sep); cbn [orb].
  - intros _. destruct (split_head sep s) as [rest ->]. now eexists _, _, _.
  - intros H. destruct (IH H) as (h & x & rest & ->). now eexists _, _, _.
Qed.

Lemma split_last (sep : ascii) (s : string) :
  last_item (PyStr.split sep s) = Some (after_last sep s).
Proof.
  induction s as [|c s IH]; [reflexivity|].
  cbn [after_last]. cbn [PyStr.split PyStr.contains].
  destruct (Ascii.eqb c sep); cbn [orb].
  - destruct (split_head sep s) as [rest Hs]. rewrite Hs in *. exact IH.
  - destruct (PyStr.contains sep s) eqn:Hc.
    + destruct (split_with_sep sep s Hc) as (h & x & rest & Hs).
      rewrite Hs in *. exact IH.
    + rewrite (split_without_sep sep s Hc). reflexivity.
Qed.

Lemma collect_timestamp_inr (key : string) (timestamps : list Z) :
  collect_timestamp key (inr timestamps)
  = inr (timestamps ++ leading_timestamps [key])%list.
Proof.
  unfold collect_timestamp, leading_timestamps, leading_segment.
  rewrite split_last.
  destruct (split_head "_" (after_last "/" key)) as [rest ->].
  cbn [flat_map]. rewrite app_nil_r.
  destruct (py_int _); [reflexivity | now rewrite app_nil_r].
Qed.

Lemma collect_all (contents : list string) (timestamps : list Z) :
  fold_left (fun acc key => collect_timestamp key acc) contents (inr timestamps)
  = inr (timestamps ++ leading_timestamps contents)%list.
Proof.
  revert timestamps. induction contents as [|key contents IH]; intros timestamps.
  - cbn. now rewrite app_nil_r.
  - cbn [fold_left]. rewrite collect_timestamp_inr, IH.
    unfold leading_timestamps. cbn [flat_map].
    now rewrite app_nil_r, <- app_assoc.
Qed.

Lemma py_max_ge (x : Z) (xs : list Z) :
  (x <= py_max x xs)%Z /\ forall y, In y xs -> (y <= py_max x xs)%Z.
Proof.
  unfold py_max. revert x. induction xs as [|a xs IH]; intros x; cbn [fold_left].
  - split; [lia | intros y []].
  - destruct (IH (Z.max x a)) as [H1 H2]. split; [lia|].
    intros y [<-|Hy]; [lia | now apply H2].
Qed.

Lemma py_max_in (x : Z) (xs : list Z) : In (py_max x xs) (x :: xs).
Proof.
  unfold py_max. revert x. induction xs as [|a xs IH]; intros x; cbn [fold_left].
  - now left.
  - destruct (IH (Z.max x a)) as [H|H].
    + destruct (Z.max_spec x a) as [[_ E]|[_ E]]; rewrite E in *.
      * right. left. exact H.
      * left. exact H.
    + right. right. exact H.
Qed.

Lemma leading_timestamps_in (contents : list string) (t : Z) :
  In t (leading_timestamps contents) <->
  exists key, In key contents /\ py_int (leading_segment key) = Some t.
Proof.
  unfold leading_timestamps. rewrite in_flat_map. split.
  - intros (key & Hk & Ht). exists key. split; [exact Hk|].
    destruct (py_int (leading_segment key)); [|destruct Ht].
    destruct Ht as [->|[]]. reflexivity.
  - intros (key & Hk & Ht). exists key. split; [exact Hk|].
    rewrite Ht. now left.
Qed.

(** C4. The resolver returns, never raising, the greatest integer read
    off a leading segment of the listed keys, and [None] exactly when the
    listing has no ["Contents"] or no leading segment reads as an integer;
    keys whose segment does not read are passed over. *)
Theorem get_latest_timestamp_max (channel_id channel_name : string) (tr : Trace) :
  let key_prefix := "slack_history/" ++ channel_name ++ "/" ++ channel_id ++ "/" in
  let listing := list_objects_v2 tr bucket_name key_prefix in
  exists watermark,
    get_latest_timestamp channel_id channel_name tr
    = Returned watermark (tr ++ [EvListObjects bucket_name key_prefix])%list
    /\ match watermark with
       | Some latest_ts =>
           exists contents, listing = Some contents
             /\ (exists key, In key contents /\ py_int (leading_segment key) = Some latest_ts)
             /\ (forall key t, In key contents -> py_int (leading_segment key) = Some t ->
                               (t <= latest_ts)%Z)
       | None =>
           listing = None
           \/ exists contents, listing = Some contents
                /\ forall key, In key contents -> py_int (leading_segment key) = None
       end.
Proof.
  intros key_prefix listing. unfold get_latest_timestamp.
  fold key_prefix. fold listing.
  destruct listing as [contents|]; [|exists None; split; [reflexivity | now left]].
  rewrite collect_all. cbn [app].
  destruct (leading_timestamps contents) as [|t timestamps] eqn:Hts.
  - exists None. split; [reflexivity|]. right. exists contents. split; [reflexivity|].
    intros key Hk. destruct (py_int (leading_segment key)) as [t|] eqn:Ht; [|reflexivity].
    assert (Hin : In t (leading_timestamps contents))
      by (apply leading_timestamps_in; now exists key).
    rewrite Hts in Hin. destruct Hin.
  - exists (Some (py_max t timestamps)). split; [reflexivity|].
    exists contents. split; [reflexivity|]. split.
    + apply leading_timestamps_in. rewrite Hts. apply py_max_in.
    + intros key t' Hk Ht'.
      assert (Hin : In t' (leading_timestamps contents))
        by (apply leading_timestamps_in; now exists key).
      rewrite Hts in Hin. destruct (py_max_ge t timestamps) as [H1 H2].
      destruct Hin as [<-|Hin]; [exact H1 | now apply H2].
Qed.

End Watermark.

(** The keys of the specification's example. *)
Example get_latest_timestamp_example :
  let P := Script.platform [] (fun _ => [])
             (Some ["slack_history/general/C1/1000_aaa.json";
                    "slack_history/general/C1/2000_bbb.json";
                    "slack_history/general/C1/not_a_number.json"]) in
  get_latest_timestamp "C1" "general" []
  = Returned (Some 2000%Z) [EvListObjects "bucket" "slack_history/general/C1/"].
Proof. reflexivity. Qed.

(** ** The history paginator *)

Section Paginator.

Context {P : Platform}.

Lemma history_calls_app (a b : Trace) :
  history_calls (a ++ b)%list = (history_calls a ++ history_calls b)%list.
Proof.
  induction a as [|e a IH]; [reflexivity|].
  destruct e; cbn [app history_calls]; now rewrite IH.
Qed.

Lemma history_loop_step (fuel : nat) (channel_id : string) (start_time : option Z)
    (latest_ts : float) (msgs : list Message) (tr : Trace) :
  let params := history_params channel_id start_time latest_ts in
  let response := conversations_history tr params in
  history_loop (S fuel) channel_id start_time latest_ts msgs tr
  = if has_more response
    then match last_item (messages response) with
         | None => Raised IndexError (tr ++ [EvHistory params])%list
         | Some m =>
             history_loop fuel channel_id start_time (py_float (ts m))
               (msgs ++ messages response)%list (tr ++ [EvHistory params])%list
         end
    else Returned (msgs ++ messages response)%list (tr ++ [EvHistory params])%list.
Proof. cbn [history_loop]. now destruct (has_more _). Qed.

(** The loop returns by the first page without [has_more], within as
    many calls as pages served. *)
Lemma history_loop_returns (n : nat) :
  forall (fuel : nat) (channel_id : string) (start_time : option Z)
         (latest_ts : float) (msgs : list Message) (tr : Trace) (page : HistoryResponse),
    page_at n channel_id start_time latest_ts tr = Some page ->
    has_more page = false ->
    n < fuel ->
    exists msgs' tr',
      history_loop fuel channel_id start_time latest_ts msgs tr = Returned msgs' tr'
      /\ List.length (history_calls tr') <= List.length (history_calls tr) + S n.
Proof.
  induction n as [|n IH]; intros [|fuel] channel_id start_time latest_ts msgs tr page
    Hpage Hmore Hfuel; try lia; rewrite history_loop_step; cbn [page_at] in Hpage.
  - injection Hpage as <-. rewrite Hmore.
    eexists _, _. split; [reflexivity|].
    rewrite history_calls_app, List.length_app. cbn. lia.
  - destruct (has_more (conversations_history tr _)).
    + destruct (last_item _) as [m|]; [|discriminate].
      destruct (IH fuel channel_id start_time (py_float (ts m))
                  (msgs ++ messages (conversations_history tr
                     (history_params channel_id start_time latest_ts)))%list
                  _ page Hpage Hmore ltac:(lia)) as (msgs' & tr' & Heq & Hlen).
      exists msgs', tr'. split; [exact Heq|].
      rewrite history_calls_app, List.length_app in Hlen. cbn in Hlen. lia.
    + eexists _, _. split; [reflexivity|].
      rewrite history_calls_app, List.length_app. cbn. lia.
Qed.

(** The loop raises only at a page that has [has_more] and no message. *)
Lemma history_loop_raises (fuel : nat) :
  forall (channel_id : string) (start_time : option Z) (latest_ts : float)
         (msgs : list Message) (tr : Trace) (e : exn) (tr' : Trace),
    history_loop fuel channel_id start_time latest_ts msgs tr = Raised e tr' ->
    exists tr0 params,
      tr' = (tr0 ++ [EvHistory params])%list
      /\ has_more (conversations_history tr0 params) = true
      /\ messages (conversations_history tr0 params) = [].
Proof.
  induction fuel as [|fuel IH]; intros channel_id start_time latest_ts msgs tr e tr' H;
    [discriminate|].
  rewrite history_loop_step in H.
  destruct (has_more (conversations_history tr _)) eqn:Hmore; [|discriminate].
  destruct (messages (conversations_history tr _)) as [|m0 rest] eqn:Hmsgs.
  - cbn [last_item] in H. inversion H; subst.
    exists tr, (history_params channel_id start_time latest_ts). now rewrite Hmore, Hmsgs.
  - destruct (last_item (m0 :: rest)) as [m|] eqn:Hlast.
    + exact (IH _ _ _ _ _ _ _ H).
    + exfalso. clear - Hlast. revert m0 Hlast.
      induction rest as [|x rest IHr]; intros m0 Hlast; [discriminate|].
      exact (IHr x Hlast).
Qed.

(** C8. When the first page reports no further page, the paginator
    returns after exactly one history call with that page's messages; and
    whenever some page of the run reports no further page, the loop
    returns, within as many calls as pages served up to that one. *)
Theorem fetch_history_pages_terminates (channel_id : string) (start_time : option Z)
    (tr : Trace) :
  let params := history_params channel_id start_time (now_timestamp tr) in
  let first_page := conversations_history (tr ++ [EvNow])%list params in
  (has_more first_page = false ->
   forall fuel,
     fetch_history_pages (S fuel) channel_id start_time tr
     = Returned (messages first_page) (tr ++ [EvNow; EvHistory params])%list
     /\ history_calls (tr ++ [EvNow; EvHistory params])%list
        = (history_calls tr ++ [params])%list)
  /\ (forall n page fuel,
        page_at n channel_id start_time (now_timestamp tr) (tr ++ [EvNow])%list = Some page ->
        has_more page = false ->
        n < fuel ->
        exists msgs tr',
          fetch_history_pages fuel channel_id start_time tr = Returned msgs tr'
          /\ List.length (history_calls tr') <= List.length (history_calls tr) + S n).
Proof.
  intros params first_page. split.
  - intros Hmore fuel. unfold fetch_history_pages. rewrite history_loop_step.
    fold params. fold first_page. rewrite Hmore. split.
    + now rewrite <- app_assoc.
    + now rewrite history_calls_app.
  - intros n page fuel Hpage Hmore Hfuel. unfold fetch_history_pages.
    destruct (history_loop_returns n fuel channel_id start_time (now_timestamp tr) []
                _ page Hpage Hmore Hfuel) as (msgs & tr' & Heq & Hlen).
    exists msgs, tr'. split; [exact Heq|].
    rewrite history_calls_app in Hlen. cbn in Hlen. rewrite app_nil_r in Hlen. exact Hlen.
Qed.

(** C10. When every page that reports [has_more] holds a message, the
    read of a page's last message never fails; the paginator raises only
    at a page that reports [has_more] and holds no message. *)
Theorem fetch_history_pages_last_in_bounds (fuel : nat) (channel_id : string)
    (start_time : option Z) (tr : Trace) :
  ((forall tr0 params,
       has_more (conversations_history tr0 params) = true ->
       messages (conversations_history tr0 params) <> []) ->
   forall e tr', fetch_history_pages fuel channel_id start_time tr <> Raised e tr')
  /\ (forall e tr',
        fetch_history_pages fuel channel_id start_time tr = Raised e tr' ->
        exists tr0 params,
          tr' = (tr0 ++ [EvHistory params])%list
          /\ has_more (conversations_history tr0 params) = true
          /\ messages (conversations_history tr0 params) = []).
Proof.
  assert (Hraise : forall e tr',
             fetch_history_pages fuel channel_id start_time tr = Raised e tr' ->
             exists tr0 params,
               tr' = (tr0 ++ [EvHistory params])%list
               /\ has_more (conversations_history tr0 params) = true
               /\ messages (conversations_history tr0 params) = [])
    by (intros e tr'; apply history_loop_raises).
  split; [|exact Hraise].
  intros Hguard e tr' H.
  destruct (Hraise e tr' H) as (tr0 & params & _ & Hmore & Hnil).
  exact (Hguard tr0 params Hmore Hnil).
Qed.

(** An empty page that reports [has_more] does make the read fail. *)
Lemma history_loop_empty_page (fuel : nat) (channel_id : string)
    (start_time : option Z) (latest_ts : float) (msgs : list Message) (tr : Trace) :
  let params := history_params channel_id start_time latest_ts in
  has_more (conversations_history tr params) = true ->
  messages (conversations_history tr params) = [] ->
  history_loop (S fuel) channel_id start_time latest_ts msgs tr
  = Raised IndexError (tr ++ [EvHistory params])%list.
Proof.
  intros params Hmore Hnil. rewrite history_loop_step. fold params.
  now rewrite Hmore, Hnil.
Qed.

End Paginator.

(** ** The thread reconstructor *)

Section Reconstructor.

Context {P : Platform}.
Variable channel_id : string.
Variable users : Users.

Let step := fun acc m => structure_message channel_id users m acc.

Lemma tl_map {A B} (f : A -> B) (l : list A) : tl (map f l) = map f (tl l).
Proof. now destruct l. Qed.

Lemma structure_message_cases (m : Message) (topics : list Topic) (tr : Trace) :
  structure_message channel_id users m (topics, tr)
  = if emits m
    then ((topics ++ [thread_topic channel_id users m tr])%list,
          (tr ++ [EvReplies channel_id (ts m)])%list)
    else (topics, tr).
Proof.
  unfold structure_message, emits.
  destruct (is_broadcast m); [reflexivity|].
  destruct (is_thread_root m); reflexivity.
Qed.

Lemma structure_fold (msgs : list Message) (topics : list Topic) (tr : Trace) :
  fold_left step msgs (topics, tr)
  = ((topics ++ fst (structure_messages channel_id users msgs tr))%list,
     snd (structure_messages channel_id users msgs tr)).
Proof.
  unfold structure_messages. fold step.
  revert topics tr. induction msgs as [|m msgs IH]; intros topics tr.
  - cbn. now rewrite app_nil_r.
  - cbn [fold_left].
    assert (Hstep : forall acc, step acc m = structure_message channel_id users m acc)
      by reflexivity.
    rewrite !Hstep, !structure_message_cases.
    destruct (emits m).
    + rewrite (IH (topics ++ _)%list), (IH ([] ++ _)%list).
      cbn [fst snd app]. now rewrite <- app_assoc.
    + apply IH.
Qed.

Lemma structure_messages_cons (m : Message) (msgs : list Message) (tr : Trace) :
  structure_messages channel_id users (m :: msgs) tr
  = if emits m
    then (thread_topic channel_id users m tr
            :: fst (structure_messages channel_id users msgs
                      (tr ++ [EvReplies channel_id (ts m)])%list),
          snd (structure_messages channel_id users msgs
                 (tr ++ [EvReplies channel_id (ts m)])%list))
    else structure_messages channel_id users msgs tr.
Proof.
  unfold structure_messages at 1. cbn [fold_left]. fold step.
  rewrite structure_message_cases. destruct (emits m).
  - now rewrite structure_fold.
  - reflexivity.
Qed.

(** C6 (as amended). The reconstructor emits, in scan order, one Topic
    for every history message that is not flagged as a broadcast reply
    and whose thread identifier equals its own timestamp, rooted at that
    message, and no Topic for any other message. *)
Theorem structure_messages_one_topic_per_root (msgs : list Message) (tr : Trace) :
  map (fun t => (topic t, hd_error (topic_messages t)))
      (fst (structure_messages channel_id users msgs tr))
  = map (fun m => (message_text users m, Some (root_entry users m)))
        (filter emits msgs).
Proof.
  revert tr. induction msgs as [|m msgs IH]; intros tr; [reflexivity|].
  rewrite structure_messages_cons. cbn [filter].
  destruct (emits m); [|apply IH].
  cbn [fst map]. now rewrite IH.
Qed.

(** C7 (as amended). History messages flagged as broadcast replies are
    passed over: the output is that of the list without them, and every
    Topic is rooted at an unflagged history message.  The entries after
    the root are those of the fetched reply list after its first item,
    flagged or not. *)
Theorem structure_messages_skips_broadcasts (msgs : list Message) (tr : Trace) :
  structure_messages channel_id users msgs tr
  = structure_messages channel_id users
      (filter (fun m => negb (is_broadcast m)) msgs) tr
  /\ forall t, In t (fst (structure_messages channel_id users msgs tr)) ->
       exists m tr0,
         In m msgs /\ is_broadcast m = false /\ is_thread_root m = true
         /\ topic t = message_text users m
         /\ topic_messages t
            = root_entry users m
              :: map (fun reply => reply_entry users (reply, datetime_of reply))
                     (tl (conversations_replies tr0 channel_id (ts m))).
Proof.
  split.
  - revert tr. induction msgs as [|m msgs IH]; intros tr; [reflexivity|].
    cbn [filter]. unfold emits in *.
    destruct (is_broadcast m) eqn:Hb; cbn [negb].
    + rewrite structure_messages_cons. unfold emits. rewrite Hb. apply IH.
    + rewrite !structure_messages_cons. unfold emits. rewrite Hb. cbn [negb andb].
      destruct (is_thread_root m); [|apply IH]. now rewrite IH.
  - revert tr. induction msgs as [|m msgs IH]; intros tr t Ht; [destruct Ht|].
    rewrite structure_messages_cons in Ht.
    destruct (emits m) eqn:Hm.
    + cbn [fst] in Ht. destruct Ht as [<-|Ht].
      * apply andb_true_iff in Hm as [Hb Hr]. apply negb_true_iff in Hb.
        exists m, tr. split; [now left|]. repeat split; try assumption.
        unfold thread_topic, fetch_thread_replies. cbn [topic_messages fst].
        f_equal. rewrite tl_map, map_map. reflexivity.
      * destruct (IH _ t Ht) as (m' & tr0 & Hin & H). exists m', tr0.
        split; [now right | exact H].
    + destruct (IH _ t Ht) as (m' & tr0 & Hin & H). exists m', tr0.
      split; [now right | exact H].
Qed.

(** C5 (as amended). A history message that is not flagged as a
    broadcast reply, whose thread identifier equals its own timestamp and
    whose reply fetch returns the root followed by [N] replies with
    strictly ascending datetimes, yields exactly one Topic of [N+1]
    entries; the first is built from the message, with the datetime of
    its timestamp, and the datetimes are strictly ascending. *)
Theorem structure_messages_thread (m root : Message) (replies : list Message)
    (tr : Trace) :
  is_broadcast m = false ->
  is_thread_root m = true ->
  conversations_replies tr channel_id (ts m) = root :: replies ->
  ts root = ts m ->
  Sorted datetime_lt (map datetime_of (root :: replies)) ->
  exists t,
    structure_messages channel_id users [m] tr
    = ([t], (tr ++ [EvReplies channel_id (ts m)])%list)
    /\ List.length (topic_messages t) = S (List.length replies)
    /\ hd_error (topic_messages t) = Some (root_entry users m)
    /\ tm_datetime (root_entry users m) = datetime_of m
    /\ Sorted datetime_lt (map tm_datetime (topic_messages t)).
Proof.
  intros Hb Hr Hfetch Hts Hsorted.
  exists (thread_topic channel_id users m tr).
  rewrite structure_messages_cons. unfold emits. rewrite Hb, Hr. cbn [negb andb].
  split; [reflexivity|].
  unfold thread_topic, fetch_thread_replies. cbn [topic_messages fst].
  rewrite Hfetch. cbn [map tl].
  split; [cbn [List.length]; now rewrite !length_map|].
  split; [reflexivity|]. split; [reflexivity|].
  cbn [map] in *. rewrite !map_map. cbn [reply_entry tm_datetime snd root_entry].
  unfold datetime_of in Hsorted at 1. rewrite Hts in Hsorted. exact Hsorted.
Qed.

End Reconstructor.

Lemma structure_messages_thread_witness :
  let P := Script.platform [] (Script.thread_of [Script.reply2; Script.reply3; Script.reply4])
             None in
  exists t,
    structure_messages "C1" [("U1", "alice")] [Script.root1] []
    = ([t], [EvReplies "C1" "1"])
    /\ List.length (topic_messages t) = 4
    /\ hd_error (topic_messages t) = Some (root_entry [("U1", "alice")] Script.root1)
    /\ tm_datetime (root_entry [("U1", "alice")] Script.root1) = datetime_of Script.root1
    /\ Sorted datetime_lt (map tm_datetime (topic_messages t)).
Proof.
  intros P.
  refine (structure_messages_thread "C1" [("U1", "alice")] Script.root1 Script.root1
            [Script.reply2; Script.reply3; Script.reply4] [] eq_refl eq_refl eq_refl eq_refl _).
  repeat constructor.
Defined.

(** C5 as stated fails: a message whose thread identifier equals its own
    timestamp and that is flagged as a broadcast reply yields no Topic. *)
Lemma structure_messages_thread_counterexample :
  ~ (forall (P : Platform) (channel_id : string) (users : Users) (m root : Message)
            (replies : list Message) (tr : Trace),
        is_thread_root m = true ->
        conversations_replies tr channel_id (ts m) = root :: replies ->
        ts root = ts m ->
        exists t,
          structure_messages channel_id users [m] tr
          = ([t], (tr ++ [EvReplies channel_id (ts m)])%list)
          /\ List.length (topic_messages t) = S (List.length replies)
          /\ hd_error (topic_messages t) = Some (root_entry users m)
          /\ Sorted datetime_lt (map tm_datetime (topic_messages t))).
Proof.
  intros H.
  destruct (H (Script.platform [] (Script.thread_of [Script.reply2]) None)
              "C1" [] Script.flagged_root1 Script.root1 [Script.reply2] []
              eq_refl eq_refl eq_refl) as (t & Heq & _).
  discriminate Heq.
Qed.

(** Nor does the code order the replies: for an unflagged root whose
    fetched replies are out of order, so are the entries of the Topic. *)
Lemma structure_messages_keeps_fetch_order :
  let P := Script.platform [] (Script.thread_of [Script.reply3; Script.reply2]) None in
  exists t,
    structure_messages "C1" [] [Script.root1] [] = ([t], [EvReplies "C1" "1"])
    /\ map tm_datetime (topic_messages t) = ["1"; "3"; "2"]
    /\ ~ Sorted datetime_lt (map tm_datetime (topic_messages t)).
Proof.
  intros P. eexists. split; [reflexivity|]. split; [reflexivity|].
  cbn. intros Hs.
  inversion Hs as [|? ? Hs' _]; subst.
  inversion Hs' as [|? ? _ Hhd]; subst.
  inversion Hhd as [|? ? Hlt]; subst.
  discriminate Hlt.
Qed.

(** C6 as stated fails: a flagged message whose thread identifier equals
    its own timestamp gets no Topic. *)
Lemma structure_messages_root_counterexample :
  ~ (forall (P : Platform) (channel_id : string) (users : Users)
            (msgs : list Message) (tr : Trace),
        List.length (fst (structure_messages channel_id users msgs tr))
        = List.length (filter is_thread_root msgs)).
Proof.
  intros H.
  specialize (H (Script.platform [] (Script.thread_of []) None)
                "C1" [] [Script.flagged_root1] []).
  discriminate H.
Qed.

(** C7 as stated fails: a flagged reply that the reply fetch returns is
    an entry of its thread's Topic. *)
Lemma structure_messages_broadcast_counterexample :
  ~ (forall (P : Platform) (channel_id : string) (users : Users)
            (msgs : list Message) (tr : Trace) (t : Topic) (r : Message),
        In t (fst (structure_messages channel_id users msgs tr)) ->
        is_broadcast r = true ->
        ~ In (reply_entry users (r, datetime_of r)) (topic_messages t)).
Proof.
  intros H.
  set (P := Script.platform [] (Script.thread_of [Script.flagged_reply2]) None).
  apply (H P "C1" [] [Script.root1; Script.flagged_reply2] []
           (thread_topic "C1" [] Script.root1 []) Script.flagged_reply2).
  - left. reflexivity.
  - reflexivity.
  - right. left. reflexivity.
Qed.

Lemma fetch_history_pages_terminates_witness :
  let P := Script.platform [{| messages := [Script.root1]; has_more := false |}]
             (Script.thread_of []) None in
  let Q := Script.platform Script.two_pages (Script.thread_of []) None in
  @fetch_history_pages P 1 "C1" None []
  = Returned [Script.root1]
      [EvNow; EvHistory (@history_params P "C1" None "1700000000.0")]
  /\ exists msgs tr',
       @fetch_history_pages Q 2 "C1" None [] = Returned msgs tr'
       /\ List.length (history_calls tr') <= 2.
Proof.
  intros P Q. split.
  - exact (proj1 (proj1 (@fetch_history_pages_terminates P "C1" None []) eq_refl 0)).
  - exact (proj2 (@fetch_history_pages_terminates Q "C1" None []) 1 _ 2
             eq_refl eq_refl (le_n 2)).
Defined.

Lemma two_pages_guard :
  let P := Script.platform Script.two_pages (Script.thread_of []) None in
  forall tr0 params,
    has_more (conversations_history tr0 params) = true ->
    messages (conversations_history tr0 params) <> [].
Proof.
  intros P tr0 params. cbn.
  destruct (Script.served tr0) as [|[|[|k]]]; cbn; intros H; discriminate.
Defined.

Lemma fetch_history_pages_last_in_bounds_witness :
  let P := Script.platform Script.two_pages (Script.thread_of []) None in
  fetch_history_pages 5 "C1" None [] <> Raised IndexError [].
Proof.
  intros P.
  exact (proj1 (fetch_history_pages_last_in_bounds 5 "C1" None []) two_pages_guard
           IndexError []).
Defined.

(** The failure of C10's guard on a concrete run. *)
Example fetch_history_pages_hollow_page :
  let P := Script.platform Script.hollow_pages (Script.thread_of []) None in
  fetch_history_pages 5 "C1" None []
  = Raised IndexError [EvNow; EvHistory (history_params "C1" None "1700000000.0")].
Proof. reflexivity. Qed.

(** The thread of the specification's example, and a broadcast copy of a
    reply in the history. *)
Example structure_messages_example :
  let P := Script.platform [] (Script.thread_of [Script.reply2; Script.reply3; Script.reply4])
             None in
  fst (structure_messages "C1" [("U1", "alice")]
         [Script.flagged_reply2; Script.root1; Script.msg "9" None None] [])
  = [{| topic := "m1";
        topic_messages :=
          [{| tm_user := "alice"; tm_text := "m1"; tm_datetime := "1" |};
           {| tm_user := "alice"; tm_text := "m2"; tm_datetime := "2" |};
           {| tm_user := "alice"; tm_text := "m3"; tm_datetime := "3" |};
           {| tm_user := "alice"; tm_text := "m4"; tm_datetime := "4" |}] |}].
Proof. reflexivity. Qed.

(** ** The chunked archive writer *)

Section Writer.

Context {P : Platform}.
Variable channel_id : string.
Variable channel_name : string.

Lemma puts_app (a b : Trace) : puts (a ++ b)%list = (puts a ++ puts b)%list.
Proof.
  induction a as [|e a IH]; [reflexivity|].
  destruct e; cbn [app puts]; now rewrite IH.
Qed.

Lemma puts_put_file (batch : list Topic) (tr : Trace) :
  exists request,
    puts (put_file channel_id channel_name batch tr) = (puts tr ++ [request])%list
    /\ Body request = file_body batch
    /\ Bucket request = bucket_name
    /\ ContentType request = "application/json".
Proof.
  unfold put_file, generate_file_name. eexists. split.
  - rewrite !puts_app. cbn [puts]. now rewrite app_nil_r.
  - now cbn.
Qed.

Lemma accounted_app (a b : list Topic) :
  accounted (a ++ b)%list = (accounted a + accounted b)%Z.
Proof. unfold accounted. induction a as [|e a IH]; cbn [app fold_right] in *; lia. Qed.

Lemma accounted_snoc (a : list Topic) (entry : Topic) :
  accounted (a ++ [entry])%list = (accounted a + entry_size entry)%Z.
Proof. rewrite accounted_app. cbn. lia. Qed.

(** The loop and the final flush write the batches of [chunk], one
    [put_object] each. *)
Lemma save_loop_chunk (data : list Topic) :
  forall w : Writer,
    total_size w = accounted (file_data w) ->
    exists requests,
      puts (finish channel_id channel_name
              (fold_left (save_entry channel_id channel_name) data w))
      = (puts (written w) ++ requests)%list
      /\ map Body requests = map file_body (chunk (file_data w) data)
      /\ Forall ours requests.
Proof.
  induction data as [|entry data IH]; intros [total pending tr] Htotal;
    cbn [total_size file_data written] in *.
  - cbn [fold_left chunk]. unfold finish. cbn [file_data written].
    destruct pending as [|e pending].
    + exists []. now rewrite app_nil_r.
    + destruct (puts_put_file (e :: pending) tr) as (request & Hputs & Hbody & Hours).
      exists [request]. split; [exact Hputs|].
      split; [cbn [map]; now rewrite Hbody|].
      constructor; [exact Hours | constructor].
  - cbn [fold_left chunk]. unfold save_entry at 2. cbn [total_size file_data written].
    rewrite Htotal.
    destruct ((accounted pending + entry_size entry >? MAX_FILE_SIZE)%Z
              && negb match pending with [] => true | _ :: _ => false end).
    + cbn [total_size file_data written app].
      destruct (IH {| total_size := (0 + entry_size entry)%Z;
                      file_data := [entry];
                      written := put_file channel_id channel_name pending tr |})
        as (requests & Hputs & Hbodies & Hours); [cbn; lia|].
      cbn [file_data written] in *.
      destruct (puts_put_file pending tr) as (request & Hput & Hbody & Hour).
      exists (request :: requests). split; [|split].
      * rewrite Hputs, Hput, <- app_assoc. reflexivity.
      * cbn [map]. now rewrite Hbody, Hbodies.
      * now constructor.
    + destruct (IH {| total_size := (accounted pending + entry_size entry)%Z;
                      file_data := (pending ++ [entry])%list;
                      written := tr |})
        as (requests & Hputs & Hbodies & Hours);
        [cbn [total_size file_data]; now rewrite accounted_snoc|].
      now exists requests.
Qed.

Lemma chunk_concat (data pending : list Topic) :
  List.concat (chunk pending data) = (pending ++ data)%list.
Proof.
  revert pending. induction data as [|entry data IH]; intros pending; cbn [chunk].
  - destruct pending; cbn; now rewrite ?app_nil_r.
  - destruct (_ && _).
    + cbn [List.concat]. now rewrite IH.
    + now rewrite IH, <- app_assoc.
Qed.

Lemma chunk_nonempty (data pending : list Topic) :
  Forall (fun batch => batch <> []) (chunk pending data).
Proof.
  revert pending. induction data as [|entry data IH]; intros pending; cbn [chunk].
  - destruct pending; constructor; [discriminate | constructor].
  - destruct pending as [|e pending]; cbn [negb andb].
    + rewrite andb_false_r. apply IH.
    + rewrite andb_true_r. destruct (_ >? _)%Z; [|apply IH].
      constructor; [discriminate | apply IH].
Qed.

Lemma chunk_within_budget (data pending : list Topic) :
  within_budget pending ->
  Forall within_budget (chunk pending data).
Proof.
  revert pending. induction data as [|entry data IH]; intros pending Hok; cbn [chunk].
  - destruct pending; constructor; [exact Hok | constructor].
  - destruct pending as [|e pending]; cbn [negb andb].
    + rewrite andb_false_r. apply IH. now right.
    + rewrite andb_true_r. destruct (Z.gtb_spec (accounted (e :: pending) + entry_size entry)
                                        MAX_FILE_SIZE) as [Hgt|Hle].
      * constructor; [exact Hok | apply IH; now right].
      * apply IH. left. now rewrite accounted_snoc.
Qed.

(** The first batch starts with the pending one. *)
Lemma chunk_head (data : list Topic) (e : Topic) (pending : list Topic) :
  exists more rest, chunk (e :: pending) data = (e :: more) :: rest.
Proof.
  revert e pending. induction data as [|entry data IH]; intros e pending; cbn [chunk].
  - now eexists _, _.
  - destruct (_ && _); [now eexists _, _ | apply (IH e (pending ++ [entry])%list)].
Qed.

Lemma chunk_greedy (data pending : list Topic) : greedy (chunk pending data).
Proof.
  revert pending. induction data as [|entry data IH]; intros pending; cbn [chunk].
  - destruct pending; cbn; auto.
  - destruct pending as [|e pending]; cbn [negb andb].
    + rewrite andb_false_r. apply IH.
    + rewrite andb_true_r. destruct (Z.gtb_spec (accounted (e :: pending) + entry_size entry)
                                        MAX_FILE_SIZE) as [Hgt|Hle]; [|apply IH].
      destruct (chunk_head data entry []) as (more & rest & Hhead).
      cbn [greedy]. split; [|apply IH].
      rewrite Hhead. cbn [head_size]. lia.
Qed.

Lemma batches_at_least_two (data : list Topic) (batches : list (list Topic)) :
  List.concat batches = data ->
  Forall within_budget batches ->
  (forall entry, In entry data -> (entry_size entry < MAX_FILE_SIZE)%Z) ->
  (accounted data > MAX_FILE_SIZE)%Z ->
  2 <= List.length batches.
Proof.
  intros Hconcat Hok Hsmall Hbig.
  destruct batches as [|b [|b' rest]]; cbn [List.length]; [| |lia].
  - cbn in Hconcat. subst data. cbn in Hbig. unfold MAX_FILE_SIZE, MiB in Hbig. lia.
  - cbn in Hconcat. rewrite app_nil_r in Hconcat. subst b.
    inversion Hok as [|? ? [Hle|Hone] _]; subst; [lia|].
    destruct data as [|e [|e' data]]; try discriminate.
    specialize (Hsmall e (or_introl eq_refl)).
    unfold accounted in Hbig. cbn [fold_right] in Hbig. lia.
Qed.

(** C1. The writer's [put_object] calls are those of a partition of the
    Topics into consecutive non-empty batches, one call per batch with
    the batch as body: every Topic is written, the last batch included;
    a batch of several Topics is accounted within the budget; and a batch
    is closed only when the next Topic would push the accounted size over
    the budget.  Hence Topics each smaller than the budget whose sizes
    add up to more than the budget are written as at least two objects. *)
Theorem save_to_s3_batches (data : list Topic) (tr : Trace) :
  exists (batches : list (list Topic)) (requests : list PutRequest),
    puts (save_to_s3 data channel_id channel_name tr) = (puts tr ++ requests)%list
    /\ map Body requests = map file_body batches
    /\ Forall ours requests
    /\ List.concat batches = data
    /\ Forall (fun batch => batch <> []) batches
    /\ Forall within_budget batches
    /\ greedy batches
    /\ ((forall entry, In entry data -> (entry_size entry < MAX_FILE_SIZE)%Z) ->
        (accounted data > MAX_FILE_SIZE)%Z ->
        2 <= List.length requests).
Proof.
  destruct (save_loop_chunk data {| total_size := 0; file_data := []; written := tr |})
    as (requests & Hputs & Hbodies & Hours); [reflexivity|].
  cbn [file_data written] in *.
  assert (Hok : Forall within_budget (chunk [] data))
    by (apply chunk_within_budget; left; cbn; unfold MAX_FILE_SIZE, MiB; lia).
  exists (chunk [] data), requests. repeat apply conj.
  - exact Hputs.
  - exact Hbodies.
  - exact Hours.
  - apply chunk_concat.
  - apply chunk_nonempty.
  - exact Hok.
  - apply chunk_greedy.
  - intros Hsmall Hbig.
    rewrite <- (length_map Body), Hbodies, length_map.
    exact (batches_at_least_two data _ (chunk_concat data []) Hok Hsmall Hbig).
Qed.

End Writer.

(** ** The size of what is written *)

Section BodySize.

Import Json.

Lemma value_induction (Q : value -> Prop) :
  (forall s, Q (Str s)) ->
  (forall items, Forall Q items -> Q (Arr items)) ->
  (forall members, Forall (fun kv => Q (snd kv)) members -> Q (Obj members)) ->
  forall v, Q v.
Proof.
  intros HS HA HO. fix IH 1. intros [s|items|members].
  - apply HS.
  - apply HA. induction items as [|x items IHi]; constructor; [apply IH | exact IHi].
  - apply HO. induction members as [|kv members IHm]; constructor; [apply IH | exact IHm].
Qed.

Lemma join_cons (sep x : string) (rest : list string) :
  String.length x + String.length (join sep rest)
  <= String.length (join sep (x :: rest))
  /\ String.length (join sep (x :: rest))
     <= String.length x + String.length sep + String.length (join sep rest).
Proof.
  destruct rest as [|y rest]; cbn [join].
  - cbn [String.length]. lia.
  - rewrite !string_length_app. lia.
Qed.

Lemma join_cons_cons (sep x y : string) (rest : list string) :
  String.length (join sep (x :: y :: rest))
  = String.length x + String.length sep + String.length (join sep (y :: rest)).
Proof. cbn [join]. rewrite !string_length_app. lia. Qed.

(** Longer items and a longer separator make a longer join. *)
Lemma join_le (sep sep' : string) (xs ys : list string) :
  String.length sep <= String.length sep' ->
  Forall2 (fun x y => String.length x <= String.length y) xs ys ->
  String.length (join sep xs) <= String.length (join sep' ys).
Proof.
  intros Hsep H. induction H as [|x y xs ys Hxy Hrest IH]; [reflexivity|].
  destruct Hrest as [|x' y' xs ys Hxy' Hrest].
  - exact Hxy.
  - rewrite !join_cons_cons. lia.
Qed.

Lemma dumps_arr (items : list value) :
  dumps (Arr items) = "[" ++ join ", " (map dumps items) ++ "]".
Proof. reflexivity. Qed.

Lemma dumps_obj (members : list (string * value)) :
  dumps (Obj members)
  = "{" ++ join ", " (map (fun kv => quoted (escape (fst kv)) ++ ": " ++ dumps (snd kv)) members)
        ++ "}".
Proof. reflexivity. Qed.

Lemma dumps_indent_arr (level : nat) (x : value) (items : list value) :
  dumps_indent level (Arr (x :: items))
  = "[" ++ break (S level)
        ++ join ("," ++ break (S level)) (map (dumps_indent (S level)) (x :: items))
        ++ break level ++ "]".
Proof. reflexivity. Qed.

Lemma dumps_indent_obj (level : nat) (kv : string * value) (members : list (string * value)) :
  dumps_indent level (Obj (kv :: members))
  = "{" ++ break (S level)
        ++ join ("," ++ break (S level))
             (map (fun kv => quoted (escape (fst kv)) ++ ": " ++ dumps_indent (S level) (snd kv))
                  (kv :: members))
        ++ break level ++ "}".
Proof. reflexivity. Qed.

Lemma length_break (level : nat) : 1 <= String.length (break level).
Proof. unfold break. cbn [String.length]. lia. Qed.

(** The indented form of a document is never shorter than the compact
    one. *)
Lemma dumps_indent_longer (v : value) :
  forall level, String.length (dumps v) <= String.length (dumps_indent level v).
Proof.
  induction v as [s|items IH|members IH] using value_induction; intros level.
  - reflexivity.
  - destruct items as [|x items]; [reflexivity|].
    rewrite dumps_arr, dumps_indent_arr, !string_length_app.
    assert (String.length (join ", " (map dumps (x :: items)))
            <= String.length (join ("," ++ break (S level))
                                (map (dumps_indent (S level)) (x :: items)))).
    { apply join_le.
      - rewrite string_length_app. pose proof (length_break (S level)). cbn. lia.
      - induction IH as [|y ys Hy _ IHys]; constructor; [apply Hy | exact IHys]. }
    lia.
  - destruct members as [|kv members]; [reflexivity|].
    rewrite dumps_obj, dumps_indent_obj, !string_length_app.
    assert (String.length
              (join ", " (map (fun kv => quoted (escape (fst kv)) ++ ": " ++ dumps (snd kv))
                              (kv :: members)))
            <= String.length
                 (join ("," ++ break (S level))
                    (map (fun kv => quoted (escape (fst kv)) ++ ": "
                                      ++ dumps_indent (S level) (snd kv))
                         (kv :: members)))).
    { apply join_le.
      - rewrite string_length_app. pose proof (length_break (S level)). cbn. lia.
      - induction IH as [|y ys Hy _ IHys]; constructor; [|exact IHys].
        rewrite !string_length_app. specialize (Hy (S level)). lia. }
    lia.
Qed.

Lemma entry_size_nonneg (entry : Topic) : (0 <= entry_size entry)%Z.
Proof. unfold entry_size, byte_len. lia. Qed.

Lemma accounted_nonneg (batch : list Topic) : (0 <= accounted batch)%Z.
Proof.
  unfold accounted. induction batch as [|e batch IH]; cbn [fold_right]; [lia|].
  pose proof (entry_size_nonneg e). lia.
Qed.

Lemma accounted_le_join (sep : string) (batch : list Topic) :
  (accounted batch
   <= byte_len (join sep (map (fun e => dumps_indent 1 (topic_json e)) batch)))%Z.
Proof.
  unfold accounted, byte_len. induction batch as [|e batch IH]; [reflexivity|].
  cbn [fold_right map].
  pose proof (proj1 (join_cons sep (dumps_indent 1 (topic_json e))
                       (map (fun e => dumps_indent 1 (topic_json e)) batch))).
  pose proof (dumps_indent_longer (topic_json e) 1).
  assert (entry_size e = Z.of_nat (String.length (dumps (topic_json e)))) by reflexivity.
  lia.
Qed.

(** The body of a file is longer than the size its batch is accounted
    for. *)
Lemma file_body_longer (batch : list Topic) :
  batch <> [] -> (accounted batch + 4 <= byte_len (file_body batch))%Z.
Proof.
  destruct batch as [|e batch]; [congruence|]. intros _.
  unfold file_body. cbn [map]. rewrite dumps_indent_arr.
  change (topic_json e :: map topic_json batch) with (map topic_json (e :: batch)).
  rewrite map_map.
  pose proof (accounted_le_join ("," ++ break 1) (e :: batch)) as H.
  unfold byte_len in *. rewrite !string_length_app.
  pose proof (length_break 1). pose proof (length_break 0).
  cbn [String.length]. lia.
Qed.

Lemma chunk_fits (data pending : list Topic) :
  (accounted pending + accounted data <= MAX_FILE_SIZE)%Z ->
  (pending ++ data)%list <> [] ->
  chunk pending data = [(pending ++ data)%list].
Proof.
  revert pending. induction data as [|entry data IH]; intros pending Hfit Hne; cbn [chunk].
  - rewrite app_nil_r in *. destruct pending; [congruence | reflexivity].
  - pose proof (accounted_nonneg data). pose proof (entry_size_nonneg entry).
    change (accounted (entry :: data)) with (entry_size entry + accounted data)%Z in Hfit.
    replace (accounted pending + entry_size entry >? MAX_FILE_SIZE)%Z with false
      by (symmetry; rewrite Z.gtb_ltb; apply Z.ltb_ge; lia).
    cbn [andb]. rewrite IH.
    + now rewrite <- app_assoc.
    + rewrite accounted_snoc. lia.
    + destruct pending; discriminate.
Qed.

Lemma accounted_repeat (entry : Topic) (n : nat) :
  accounted (repeat entry n) = (Z.of_nat n * entry_size entry)%Z.
Proof.
  induction n as [|n IH]; [reflexivity|].
  change (accounted (repeat entry (S n)))
    with (entry_size entry + accounted (repeat entry n))%Z.
  rewrite IH. lia.
Qed.

Context {P : Platform}.

(** A batch accounted within the budget is written as one object, whose
    body is longer than the accounted size. *)
Lemma save_to_s3_one_file (data : list Topic) (channel_id channel_name : string)
    (tr : Trace) :
  data <> [] ->
  (accounted data <= MAX_FILE_SIZE)%Z ->
  exists request,
    puts (save_to_s3 data channel_id channel_name tr) = (puts tr ++ [request])%list
    /\ Body request = file_body data
    /\ (accounted data + 4 <= byte_len (Body request))%Z.
Proof.
  intros Hne Hfit.
  destruct (save_loop_chunk channel_id channel_name data
              {| total_size := 0; file_data := []; written := tr |})
    as (requests & Hputs & Hbodies & _); [reflexivity|].
  cbn [file_data written] in *.
  rewrite (chunk_fits data []) in Hbodies;
    [|change (accounted []) with 0%Z; lia | exact Hne].
  cbn [app map] in Hbodies.
  destruct requests as [|request [|]]; try discriminate.
  injection Hbodies as Hbody.
  exists request. split; [exact Hputs|]. split; [exact Hbody|].
  rewrite Hbody. now apply file_body_longer.
Qed.

(** C2: the code breaks the claim.  10240 Topics of 1 KiB each are
    accounted for exactly 10 MiB, so they are written as one object; its
    body, the indented document, is longer than the budget although no
    Topic is. *)
Theorem save_to_s3_body_over_budget (channel_id channel_name : string) (tr : Trace) :
  exists request,
    puts (save_to_s3 Script.full_batch channel_id channel_name tr)
    = (puts tr ++ [request])%list
    /\ Body request = file_body Script.full_batch
    /\ (byte_len (Body request) > MAX_FILE_SIZE)%Z
    /\ entry_size Script.kib_topic = 1024%Z
    /\ accounted Script.full_batch = MAX_FILE_SIZE.
Proof.
  assert (Hsize : entry_size Script.kib_topic = 1024%Z) by (vm_compute; reflexivity).
  assert (Hacc : accounted Script.full_batch = MAX_FILE_SIZE).
  { unfold Script.full_batch. rewrite accounted_repeat, Hsize, N_nat_Z. reflexivity. }
  destruct (save_to_s3_one_file Script.full_batch channel_id channel_name tr)
    as (request & Hputs & Hbody & Hlen).
  - unfold Script.full_batch.
    destruct (N.to_nat 10240) eqn:Hn; [|discriminate].
    apply (f_equal N.of_nat) in Hn. rewrite N2Nat.id in Hn. discriminate Hn.
  - rewrite Hacc. lia.
  - exists request. repeat apply conj; try assumption. lia.
Qed.

End BodySize.

Lemma save_to_s3_batches_witness :
  let P := Script.platform [] (Script.thread_of []) None in
  exists requests,
    puts (save_to_s3 Script.over_batch "C1" "general" []) = requests
    /\ 2 <= List.length requests.
Proof.
  intros P.
  destruct (save_to_s3_batches "C1" "general" Script.over_batch [])
    as (batches & requests & Hputs & _ & _ & _ & _ & _ & _ & Htwo).
  exists requests. split; [exact Hputs|]. apply Htwo.
  - intros entry Hin. apply repeat_spec in Hin. subst entry.
    vm_compute. reflexivity.
  - unfold Script.over_batch. rewrite accounted_repeat, N_nat_Z.
    replace (entry_size Script.kib_topic) with 1024%Z by (vm_compute; reflexivity).
    reflexivity.
Defined.

(** A whole run of [fetch_channel_history] on two pages: three calls
    leave the process, and the one thread root becomes a Topic. *)
Example fetch_channel_history_example :
  let P := Script.platform Script.two_pages (Script.thread_of [Script.reply2]) None in
  fetch_channel_history 3 "C1" [("U1", "alice")] (Some 1600000000%Z) []
  = Returned
      [{| topic := "m1";
          topic_messages :=
            [{| tm_user := "alice"; tm_text := "m1"; tm_datetime := "1" |};
             {| tm_user := "alice"; tm_text := "m2"; tm_datetime := "2" |}] |}]
      [EvNow;
       EvHistory {| channel := "C1"; limit := 1000; latest := "1700000000.0";
                    oldest := Some "1600000000" |};
       EvHistory {| channel := "C1"; limit := 1000; latest := "1";
                    oldest := Some "1600000000" |};
       EvReplies "C1" "1"].
Proof. reflexivity. Qed.

(** * Further properties *)

(** ** The user directory *)

Section UserDirectory.

Lemma dict_set_get (d : Users) (k v k' : string) :
  users_get (dict_set d k v) k' = if String.eqb k k' then Some v else users_get d k'.
Proof.
  induction d as [|[j w] d IH]; cbn [dict_set users_get]; [reflexivity|].
  destruct (String.eqb_spec j k) as [->|Hjk]; cbn [users_get].
  - destruct (String.eqb k k'); reflexivity.
  - rewrite IH. destruct (String.eqb_spec j k') as [->|Hjk']; [|reflexivity].
    destruct (String.eqb_spec k k') as [->|]; [contradiction | reflexivity].
Qed.

Lemma dict_set_keys (d : Users) (k v : string) :
  map fst (dict_set d k v)
  = if existsb (String.eqb k) (map fst d) then map fst d else (map fst d ++ [k])%list.
Proof.
  induction d as [|[j w] d IH]; cbn [dict_set map fst existsb]; [reflexivity|].
  rewrite (String.eqb_sym k j).
  destruct (String.eqb j k); cbn [orb map fst]; [reflexivity|].
  rewrite IH. now destruct (existsb _ _).
Qed.

Lemma dict_set_nodup (d : Users) (k v : string) :
  NoDup (map fst d) -> NoDup (map fst (dict_set d k v)).
Proof.
  intros Hnd. rewrite dict_set_keys.
  destruct (existsb (String.eqb k) (map fst d)) eqn:Hex; [exact Hnd|].
  apply NoDup_app; [exact Hnd | constructor; [intros [] | constructor] |].
  intros j Hj [Hkj|[]]. subst j.
  assert (existsb (String.eqb k) (map fst d) = true)
    by (apply existsb_exists; exists k; split; [exact Hj | apply String.eqb_refl]).
  congruence.
Qed.

Lemma find_snoc {A} (f : A -> bool) (l : list A) (x : A) :
  find f (l ++ [x])%list
  = match find f l with Some y => Some y | None => if f x then Some x else None end.
Proof.
  induction l as [|y l IH]; cbn [app find]; [reflexivity|].
  now destruct (f y).
Qed.

Lemma users_fold (members : list Member) :
  forall d : Users,
    NoDup (map fst d) ->
    let users := fold_left (fun users u => dict_set users (member_id u) (member_name u))
                           members d in
    NoDup (map fst users)
    /\ forall k, users_get users k
                 = match last_member k members with
                   | Some u => Some (member_name u)
                   | None => users_get d k
                   end.
Proof.
  unfold last_member.
  induction members as [|u members IH]; intros d Hnd; cbn [fold_left rev find].
  - split; [exact Hnd | reflexivity].
  - destruct (IH (dict_set d (member_id u) (member_name u)) (dict_set_nodup _ _ _ Hnd))
      as [Hnd' Hget].
    split; [exact Hnd'|]. intros k. rewrite Hget, find_snoc.
    destruct (find _ (rev members)); [reflexivity|].
    rewrite dict_set_get. now destruct (String.eqb (member_id u) k).
Qed.

Context {D : Directory}.

(** X1. The mapping built by [fetch_users] has pairwise distinct ids,
    and looking an id up gives the name of the last listed member with
    that id, or nothing when no member has it. *)
Theorem fetch_users_last_wins (tr : Trace) :
  NoDup (map fst (fetch_users tr))
  /\ forall k, users_get (fetch_users tr) k
               = option_map member_name (last_member k (users_list tr)).
Proof.
  destruct (users_fold (users_list tr) [] (NoDup_nil _)) as [Hnd Hget].
  split; [exact Hnd|]. intros k. unfold fetch_users. rewrite Hget.
  now destruct (last_member k (users_list tr)).
Qed.

End UserDirectory.

(** ** More on the text normalizer *)

Section NormalizerMore.

Lemma replace_without_open (user_id new text : string) :
  no_open text = true ->
  PyStr.replace (mention user_id) new text = text.
Proof.
  intros H.
  change (PyStr.replace (mention user_id) new text)
    with (PyStr.replace_scan (mention user_id) new 0 text).
  rewrite <- (app_nil_r_s text) at 1.
  rewrite (replace_scan_plain user_id new text "" H).
  cbn [PyStr.replace_scan]. apply app_nil_r_s.
Qed.

(** X2. A text that holds no [<] is returned as it is, whatever the
    mapping. *)
Theorem normalize_without_open (text : string) (users : Users) :
  no_open text = true ->
  normalize_slack_text text users = text.
Proof.
  intros H. unfold normalize_slack_text.
  induction users as [|[user_id name] users IH]; cbn [fold_left]; [reflexivity|].
  now rewrite replace_without_open.
Qed.

Lemma users_get_no_open (users : Users) (k name : string) :
  users_ok users = true -> users_get users k = Some name -> no_open name = true.
Proof.
  induction users as [|[j n] users IH]; cbn [users_ok forallb users_get fst snd];
    [discriminate|].
  intros Hok Hget. apply andb_true_iff in Hok as [Hentry Hok].
  apply andb_true_iff in Hentry as [_ Hn].
  destruct (String.eqb j k); [now injection Hget as <- | now apply IH].
Qed.

Lemma expand_settle (users : Users) (ps : list Piece) :
  expand users ps = render (map (settle users) ps).
Proof.
  induction ps as [|p ps IH]; [reflexivity|].
  cbn [expand map render]. rewrite IH. f_equal.
  destruct p as [s|content]; [reflexivity|].
  cbn [expand_piece settle].
  destruct (mentioned content); [|reflexivity].
  now destruct (users_get users _).
Qed.

Lemma settle_ok (users : Users) (ps : list Piece) :
  users_ok users = true ->
  forallb piece_ok ps = true ->
  forallb piece_ok (map (settle users) ps) = true.
Proof.
  intros Hu. induction ps as [|p ps IH]; [reflexivity|].
  cbn [forallb map]. intros H. apply andb_true_iff in H as [Hp Hps].
  rewrite (IH Hps), andb_true_r.
  destruct p as [s|content]; [exact Hp|]. cbn [settle].
  destruct (mentioned content) as [user_id|]; [|exact Hp].
  destruct (users_get users user_id) as [name|] eqn:Hget; [|exact Hp].
  cbn [piece_ok]. apply at_name_no_open. exact (users_get_no_open users _ _ Hu Hget).
Qed.

Lemma settle_twice (users : Users) (ps : list Piece) :
  map (settle users) (map (settle users) ps) = map (settle users) ps.
Proof.
  rewrite map_map. apply map_ext. intros [s|content]; [reflexivity|].
  cbn [settle]. destruct (mentioned content) as [user_id|] eqn:Hm.
  - destruct (users_get users user_id) eqn:Hget; [reflexivity|].
    cbn [settle]. now rewrite Hm, Hget.
  - cbn [settle]. now rewrite Hm.
Qed.

(** X3. On a text of well-formed pieces and a mapping whose ids hold no
    bracket and whose names hold no [<], normalizing a second time
    changes nothing. *)
Theorem normalize_idempotent (users : Users) (ps : list Piece) :
  users_ok users = true ->
  forallb piece_ok ps = true ->
  normalize_slack_text (normalize_slack_text (render ps) users) users
  = normalize_slack_text (render ps) users.
Proof.
  intros Hu Hps.
  rewrite (normalize_render users ps Hu Hps), expand_settle.
  rewrite (normalize_render users _ Hu (settle_ok users ps Hu Hps)).
  now rewrite expand_settle, settle_twice.
Qed.

End NormalizerMore.

Lemma normalize_without_open_witness :
  normalize_slack_text "a > b, see @U1" [("U1", "alice")] = "a > b, see @U1".
Proof. exact (normalize_without_open "a > b, see @U1" [("U1", "alice")] eq_refl). Defined.

Lemma normalize_idempotent_witness :
  let users := [("U1", "alice"); ("alice", "bob")] in
  normalize_slack_text (normalize_slack_text "<@U1> <@alice> <!here>" users) users
  = normalize_slack_text "<@U1> <@alice> <!here>" users.
Proof.
  intros users.
  exact (normalize_idempotent users
           [Mention "U1"; Lit " "; Mention "alice"; Lit " "; Angle "!here"]
           eq_refl eq_refl).
Defined.

(** ** Archive keys *)

Section Keys.

Lemma after_last_none (sep : ascii) (s : string) :
  PyStr.contains sep s = false -> after_last sep s = s.
Proof. destruct s as [|c s]; cbn [after_last]; [reflexivity | now intros ->]. Qed.

Lemma after_last_app (sep : ascii) (a b : string) :
  PyStr.contains sep b = false ->
  after_last sep (a ++ String sep b) = b.
Proof.
  intros Hb. induction a as [|c a IH]; cbn [append after_last PyStr.contains].
  - rewrite Ascii.eqb_refl. cbn [orb]. now apply after_last_none.
  - rewrite contains_app. cbn [PyStr.contains]. rewrite Ascii.eqb_refl.
    cbn [orb]. rewrite !orb_true_r. exact IH.
Qed.

Lemma before_first_app (sep : ascii) (a b : string) :
  PyStr.contains sep a = false ->
  before_first sep (a ++ String sep b) = a.
Proof.
  induction a as [|c a IH]; cbn [append before_first PyStr.contains]; intros Ha.
  - now rewrite Ascii.eqb_refl.
  - apply orb_false_elim in Ha as [Hc Ha]. now rewrite Hc, IH.
Qed.

Lemma digits_plain (c : ascii) (d : Decimal.uint) :
  (nat_of_ascii c < 48 \/ 57 < nat_of_ascii c) ->
  PyStr.contains c (NilEmpty.string_of_uint d) = false.
Proof.
  intros Hc.
  assert (Hne : forall b, 48 <= nat_of_ascii b <= 57 -> Ascii.eqb b c = false).
  { intros b Hb. apply Ascii.eqb_neq. intros ->. lia. }
  induction d; cbn [NilEmpty.string_of_uint PyStr.contains]; [reflexivity|..];
    rewrite IHd, Hne; try reflexivity; cbn; lia.
Qed.

(** The decimal text of an integer holds digits and at most a sign. *)
Lemma str_int_plain (c : ascii) (n : Z) :
  (nat_of_ascii c < 48 \/ 57 < nat_of_ascii c) ->
  nat_of_ascii c <> 45 ->
  PyStr.contains c (str_int n) = false.
Proof.
  intros Hc Hsign. unfold str_int.
  assert (Hu : forall d, PyStr.contains c (NilZero.string_of_uint d) = false).
  { intros d. destruct d; try (apply digits_plain; exact Hc).
    cbn [NilZero.string_of_uint PyStr.contains].
    replace (Ascii.eqb "0" c) with false; [reflexivity|].
    symmetry. apply Ascii.eqb_neq. intros <-. cbn in Hc. lia. }
  destruct (Z.to_int n) as [d|d]; cbn [NilZero.string_of_int PyStr.contains].
  - apply Hu.
  - rewrite Hu. replace (Ascii.eqb "-" c) with false; [reflexivity|].
    symmetry. apply Ascii.eqb_neq. intros <-. now apply Hsign.
Qed.

Lemma str_int_inj (a b : Z) : str_int a = str_int b -> a = b.
Proof.
  unfold str_int. intros H.
  assert (Hok : forall z, Z.to_int z <> Decimal.Pos Decimal.Nil
                          /\ Z.to_int z <> Decimal.Neg Decimal.Nil).
  { intros [|p|p]; cbn [Z.to_int]; split; try discriminate;
      intros [= E]; exact (Unsigned.to_uint_nonnil p E). }
  assert (E : Some (Z.to_int a) = Some (Z.to_int b)).
  { rewrite <- (NilZero.isi (Z.to_int a)), <- (NilZero.isi (Z.to_int b));
      try apply Hok. now rewrite H. }
  injection E as E. rewrite <- (DecimalZ.of_to a), <- (DecimalZ.of_to b). now rewrite E.
Qed.

Lemma append_inv_head (p a b : string) : p ++ a = p ++ b -> a = b.
Proof. induction p as [|c p IH]; cbn [append]; [auto | intros [= H]; auto]. Qed.

Context {P : Platform}.

Lemma file_key_split (channel_name channel_id : string) (second : Z) :
  file_key channel_name channel_id second
  = key_prefix_of channel_name channel_id
      ++ str_int second
      ++ String "_"
           (md5_hexdigest (channel_name ++ "_" ++ channel_id ++ "_" ++ str_int second)
              ++ ".json").
Proof.
  unfold file_key, key_prefix_of.
  repeat (progress (rewrite ?app_assoc_s; cbn [append])). reflexivity.
Qed.

Lemma generate_file_name_key (channel_name channel_id : string) (tr : Trace) :
  fst (generate_file_name channel_name channel_id tr)
  = file_key channel_name channel_id (int_float (now_timestamp tr)).
Proof. reflexivity. Qed.

Lemma file_key_prefix (channel_name channel_id : string) (second : Z) :
  PyStr.startswith (key_prefix_of channel_name channel_id)
                   (file_key channel_name channel_id second) = true.
Proof. rewrite file_key_split. apply startswith_refl_app. Qed.

Lemma file_key_leading (channel_name channel_id : string) (second : Z) :
  PyStr.contains "/"
    (md5_hexdigest (channel_name ++ "_" ++ channel_id ++ "_" ++ str_int second)) = false ->
  leading_segment (file_key channel_name channel_id second) = str_int second.
Proof.
  intros Hhash. unfold leading_segment.
  assert (Hlast : after_last "/" (file_key channel_name channel_id second)
                  = str_int second
                      ++ String "_"
                           (md5_hexdigest
                              (channel_name ++ "_" ++ channel_id ++ "_" ++ str_int second)
                              ++ ".json")).
  { unfold file_key.
    replace ("slack_history/" ++ channel_name ++ "/" ++ channel_id ++ "/"
               ++ str_int second ++ "_"
               ++ md5_hexdigest (channel_name ++ "_" ++ channel_id ++ "_" ++ str_int second)
               ++ ".json")
      with (("slack_history/" ++ channel_name ++ "/" ++ channel_id)
              ++ String "/"
                   (str_int second
                      ++ String "_"
                           (md5_hexdigest
                              (channel_name ++ "_" ++ channel_id ++ "_" ++ str_int second)
                              ++ ".json")))
      by (repeat (progress (rewrite ?app_assoc_s; cbn [append])); reflexivity).
    apply after_last_app.
    rewrite contains_app. cbn [PyStr.contains]. rewrite contains_app, Hhash.
    rewrite (str_int_plain "/" second) by (cbn; lia). reflexivity. }
  rewrite Hlast. apply before_first_app. apply str_int_plain; cbn; lia.
Qed.

(** X4. The key that [generate_file_name] returns lies under the prefix
    that [get_latest_timestamp] lists for the same channel, and, when the
    digest holds no [/], its leading segment is the decimal text of the
    capture second: a listing of that key alone resolves to that second
    whenever [int] reads the text back. *)
Theorem generate_file_name_resolves (channel_name channel_id : string) (tr : Trace) :
  let second := int_float (now_timestamp tr) in
  let key := fst (generate_file_name channel_name channel_id tr) in
  PyStr.contains "/"
    (md5_hexdigest (channel_name ++ "_" ++ channel_id ++ "_" ++ str_int second)) = false ->
  py_int (str_int second) = Some second ->
  PyStr.startswith ("slack_history/" ++ channel_name ++ "/" ++ channel_id ++ "/") key = true
  /\ leading_segment key = str_int second
  /\ leading_timestamps [key] = [second].
Proof.
  intros second key Hhash Hint. unfold key. rewrite generate_file_name_key. fold second.
  split; [apply file_key_prefix|].
  assert (Hlead := file_key_leading channel_name channel_id second Hhash).
  split; [exact Hlead|].
  unfold leading_timestamps. cbn [flat_map]. now rewrite Hlead, Hint.
Qed.

(** X5. For one channel, two calls of [generate_file_name] return the
    same key exactly when the clock reads the same second at both. *)
Theorem generate_file_name_collides (channel_name channel_id : string) (tr1 tr2 : Trace) :
  fst (generate_file_name channel_name channel_id tr1)
  = fst (generate_file_name channel_name channel_id tr2)
  <-> int_float (now_timestamp tr1) = int_float (now_timestamp tr2).
Proof.
  rewrite !generate_file_name_key. split; [|now intros ->].
  rewrite !file_key_split. intros H. apply append_inv_head in H.
  apply str_int_inj. apply (f_equal (before_first "_")) in H.
  rewrite !before_first_app in H by (apply str_int_plain; cbn; lia). exact H.
Qed.

End Keys.

Lemma generate_file_name_resolves_witness :
  let P := Script.platform [] (Script.thread_of []) None in
  leading_segment (fst (generate_file_name "general" "C1" [])) = "1700000000"
  /\ leading_timestamps [fst (generate_file_name "general" "C1" [])] = [1700000000%Z].
Proof.
  intros P.
  exact (proj2 (generate_file_name_resolves "general" "C1" [] eq_refl eq_refl)).
Defined.

(** ** More on the chunked archive writer *)

Section WriterMore.

Context {P : Platform}.
Variable channel_id : string.
Variable channel_name : string.

Lemma put_file_events (batch : list Topic) (tr : Trace) :
  put_file channel_id channel_name batch tr
  = (tr ++ flush_events (put_request channel_id channel_name batch tr))%list.
Proof.
  unfold put_file, flush_events, put_request, generate_file_name.
  cbn [fst Key]. now rewrite <- app_assoc.
Qed.

(** The whole of what the loop and the final flush add to the trace. *)
Lemma save_loop_trace (data : list Topic) :
  forall w : Writer,
    exists requests,
      finish channel_id channel_name (fold_left (save_entry channel_id channel_name) data w)
      = (written w ++ flat_map flush_events requests)%list
      /\ Forall (fun request => exists batch tr0,
                     request = put_request channel_id channel_name batch tr0) requests.
Proof.
  induction data as [|entry data IH]; intros [total pending tr].
  - cbn [fold_left]. unfold finish. cbn [file_data written].
    destruct pending as [|e pending].
    + exists []. split; [now rewrite app_nil_r | constructor].
    + exists [put_request channel_id channel_name (e :: pending) tr]. split.
      * rewrite put_file_events. cbn [flat_map]. now rewrite app_nil_r.
      * constructor; [now eexists _, _ | constructor].
  - cbn [fold_left]. unfold save_entry at 2. cbn [total_size file_data written].
    destruct ((total + entry_size entry >? MAX_FILE_SIZE)%Z
              && negb match pending with [] => true | _ :: _ => false end).
    + cbn [total_size file_data written app].
      destruct (IH {| total_size := (0 + entry_size entry)%Z;
                      file_data := [entry];
                      written := put_file channel_id channel_name pending tr |})
        as (requests & Htrace & Hreq).
      cbn [written] in Htrace.
      exists (put_request channel_id channel_name pending tr :: requests). split.
      * rewrite Htrace, put_file_events. cbn [flat_map]. now rewrite <- app_assoc.
      * constructor; [now eexists _, _ | exact Hreq].
    + exact (IH {| total_size := (total + entry_size entry)%Z;
                   file_data := (pending ++ [entry])%list;
                   written := tr |}).
Qed.

Lemma puts_flush (requests : list PutRequest) :
  puts (flat_map flush_events requests) = requests.
Proof.
  induction requests as [|r requests IH]; [reflexivity|].
  cbn [flat_map flush_events app puts]. now rewrite IH.
Qed.

Lemma history_calls_flush (requests : list PutRequest) :
  history_calls (flat_map flush_events requests) = [].
Proof.
  induction requests as [|r requests IH]; [reflexivity|].
  cbn [flat_map flush_events app history_calls]. exact IH.
Qed.

Lemma reply_calls_flush (requests : list PutRequest) :
  reply_calls (flat_map flush_events requests) = [].
Proof.
  induction requests as [|r requests IH]; [reflexivity|].
  cbn [flat_map flush_events app reply_calls]. exact IH.
Qed.

Lemma save_to_s3_trace (data : list Topic) (tr : Trace) :
  exists requests,
    save_to_s3 data channel_id channel_name tr
    = (tr ++ flat_map flush_events requests)%list
    /\ Forall (fun request => exists batch tr0,
                   request = put_request channel_id channel_name batch tr0) requests.
Proof.
  exact (save_loop_trace data {| total_size := 0; file_data := []; written := tr |}).
Qed.

(** X6. [save_to_s3] only adds to the trace, and what it adds is, for
    each object in turn, one reading of the clock, the [put_object] call
    and one printed line that names the key of that call; it calls
    neither the history nor the replies interface. *)
Theorem save_to_s3_events (data : list Topic) (tr : Trace) :
  exists requests,
    save_to_s3 data channel_id channel_name tr
    = (tr ++ flat_map flush_events requests)%list
    /\ puts (save_to_s3 data channel_id channel_name tr) = (puts tr ++ requests)%list
    /\ history_calls (save_to_s3 data channel_id channel_name tr) = history_calls tr
    /\ reply_calls (save_to_s3 data channel_id channel_name tr) = reply_calls tr.
Proof.
  destruct (save_to_s3_trace data tr) as (requests & Htrace & _).
  exists requests. rewrite Htrace. split; [reflexivity|].
  split; [now rewrite puts_app, puts_flush|].
  split.
  - now rewrite history_calls_app, history_calls_flush, app_nil_r.
  - assert (Happ : forall a b, reply_calls (a ++ b)%list = (reply_calls a ++ reply_calls b)%list).
    { intros a b. induction a as [|e a IH]; [reflexivity|].
      destruct e; cbn [app reply_calls]; now rewrite IH. }
    now rewrite Happ, reply_calls_flush, app_nil_r.
Qed.

(** X7. Every object that [save_to_s3] writes goes to the configured
    bucket, as JSON, under the key prefix that [get_latest_timestamp]
    lists for the same channel. *)
Theorem save_to_s3_keys_under_prefix (data : list Topic) (tr : Trace) (request : PutRequest) :
  In request (puts (save_to_s3 data channel_id channel_name tr)) ->
  In request (puts tr)
  \/ (Bucket request = bucket_name
      /\ ContentType request = "application/json"
      /\ PyStr.startswith ("slack_history/" ++ channel_name ++ "/" ++ channel_id ++ "/")
                          (Key request) = true).
Proof.
  destruct (save_to_s3_trace data tr) as (requests & Htrace & Hreq).
  rewrite Htrace, puts_app, puts_flush. intros Hin.
  apply in_app_or in Hin as [Hin|Hin]; [now left | right].
  rewrite Forall_forall in Hreq. destruct (Hreq request Hin) as (batch & tr0 & ->).
  cbn [put_request Bucket ContentType Key]. repeat split.
  rewrite generate_file_name_key. apply file_key_prefix.
Qed.

(** X8. When the clock reads the same second throughout, every object
    of a run of [save_to_s3] is written under one and the same key. *)
Theorem save_to_s3_one_key_per_second (second : Z) (data : list Topic) (tr : Trace)
    (request : PutRequest) :
  (forall tr0, int_float (now_timestamp tr0) = second) ->
  In request (puts (save_to_s3 data channel_id channel_name tr)) ->
  In request (puts tr) \/ Key request = file_key channel_name channel_id second.
Proof.
  intros Hclock.
  destruct (save_to_s3_trace data tr) as (requests & Htrace & Hreq).
  rewrite Htrace, puts_app, puts_flush. intros Hin.
  apply in_app_or in Hin as [Hin|Hin]; [now left | right].
  rewrite Forall_forall in Hreq. destruct (Hreq request Hin) as (batch & tr0 & ->).
  cbn [put_request Key]. now rewrite generate_file_name_key, Hclock.
Qed.

Lemma bodies_forall2 (requests : list PutRequest) (batches : list (list Topic)) :
  map Body requests = map file_body batches ->
  Forall (fun batch => batch <> []) batches ->
  Forall2 (fun request batch =>
             Body request = file_body batch
             /\ (accounted batch + 4 <= Json.byte_len (Body request))%Z)
          requests batches.
Proof.
  revert batches. induction requests as [|r requests IH]; intros [|b batches] Hmap Hne;
    try discriminate; [constructor|].
  injection Hmap as Hb Hmap. inversion Hne; subst.
  constructor; [|now apply IH].
  split; [exact Hb|]. rewrite Hb. now apply file_body_longer.
Qed.

(** X9. The body of every object written is at least four bytes longer
    than the size its batch was accounted for. *)
Theorem save_to_s3_bodies_exceed_account (data : list Topic) (tr : Trace) :
  exists (batches : list (list Topic)) (requests : list PutRequest),
    puts (save_to_s3 data channel_id channel_name tr) = (puts tr ++ requests)%list
    /\ List.concat batches = data
    /\ Forall2 (fun request batch =>
                  Body request = file_body batch
                  /\ (accounted batch + 4 <= Json.byte_len (Body request))%Z)
               requests batches.
Proof.
  destruct (save_loop_chunk channel_id channel_name data
              {| total_size := 0; file_data := []; written := tr |})
    as (requests & Hputs & Hbodies & _); [reflexivity|].
  cbn [file_data written] in *.
  exists (chunk [] data), requests. split; [exact Hputs|].
  split; [apply chunk_concat|].
  apply bodies_forall2; [exact Hbodies | apply chunk_nonempty].
Qed.

Lemma concat_length_nonempty {A} (batches : list (list A)) :
  Forall (fun batch => batch <> []) batches ->
  List.length batches <= List.length (List.concat batches).
Proof.
  induction 1 as [|b batches Hb _ IH]; [reflexivity|].
  cbn [List.concat List.length]. rewrite List.length_app.
  destruct b; [congruence | cbn [List.length]; lia].
Qed.

(** X10. [save_to_s3] writes at most as many objects as there are
    Topics, and none exactly when there is no Topic. *)
Theorem save_to_s3_object_count (data : list Topic) (tr : Trace) :
  exists requests,
    puts (save_to_s3 data channel_id channel_name tr) = (puts tr ++ requests)%list
    /\ List.length requests <= List.length data
    /\ (requests = [] <-> data = []).
Proof.
  destruct (save_loop_chunk channel_id channel_name data
              {| total_size := 0; file_data := []; written := tr |})
    as (requests & Hputs & Hbodies & _); [reflexivity|].
  cbn [file_data written] in *.
  exists requests. split; [exact Hputs|].
  assert (Hlen : List.length requests = List.length (chunk [] data))
    by (rewrite <- (length_map Body), Hbodies; apply length_map).
  pose proof (concat_length_nonempty (chunk [] data) (chunk_nonempty data [])) as Hle.
  rewrite chunk_concat in Hle. cbn [app] in Hle.
  split; [lia|]. split.
  - intros ->. cbn in Hlen.
    destruct (chunk [] data) eqn:Hc; [|discriminate].
    pose proof (chunk_concat data []) as Hcat. rewrite Hc in Hcat. now cbn in Hcat.
  - intros ->. destruct requests; [reflexivity | discriminate].
Qed.

End WriterMore.

Lemma save_to_s3_keys_under_prefix_witness :
  let P := Script.platform [] (Script.thread_of []) None in
  Forall (fun request =>
            Bucket request = "bucket"
            /\ PyStr.startswith "slack_history/general/C1/" (Key request) = true)
         (puts (save_to_s3 [Script.kib_topic] "C1" "general" [])).
Proof.
  intros P. apply Forall_forall. intros request Hin.
  destruct (save_to_s3_keys_under_prefix "C1" "general" [Script.kib_topic] [] request Hin)
    as [[]|(Hb & _ & Hk)].
  split; [exact Hb | exact Hk].
Defined.

Lemma script_clock_second :
  let P := Script.platform [] (Script.thread_of []) None in
  forall tr0 : Trace, int_float (now_timestamp tr0) = 1700000000%Z.
Proof. intros P tr0. reflexivity. Defined.

Lemma save_to_s3_one_key_per_second_witness :
  let P := Script.platform [] (Script.thread_of []) None in
  Forall (fun request => Key request = file_key "general" "C1" 1700000000)
         (puts (save_to_s3 Script.over_batch "C1" "general" [])).
Proof.
  intros P. apply Forall_forall. intros request Hin.
  destruct (save_to_s3_one_key_per_second "C1" "general" 1700000000 Script.over_batch []
              request script_clock_second Hin) as [[]|Hk].
  exact Hk.
Defined.

(** ** More on the watermark resolver *)

Section WatermarkMore.

Context {P : Platform}.

Lemma get_latest_timestamp_eq (channel_id channel_name : string) (tr : Trace) :
  get_latest_timestamp channel_id channel_name tr
  = Returned
      match list_objects_v2 tr bucket_name (key_prefix_of channel_name channel_id) with
      | Some contents => watermark_of contents
      | None => None
      end
      (tr ++ [EvListObjects bucket_name (key_prefix_of channel_name channel_id)])%list.
Proof.
  unfold get_latest_timestamp, key_prefix_of, watermark_of.
  destruct (list_objects_v2 tr bucket_name _) as [contents|]; [|reflexivity].
  rewrite collect_all. cbn [app].
  now destruct (leading_timestamps contents).
Qed.

Lemma watermark_grows (contents contents' : list string) (t : Z) :
  incl contents contents' ->
  watermark_of contents = Some t ->
  exists t', watermark_of contents' = Some t' /\ (t <= t')%Z.
Proof.
  unfold watermark_of. intros Hincl Ht.
  destruct (leading_timestamps contents) as [|t0 ts] eqn:Hts; [discriminate|].
  injection Ht as <-.
  assert (Hin : In (py_max t0 ts) (leading_timestamps contents'))
    by (pose proof (py_max_in t0 ts) as Hin; rewrite <- Hts in Hin;
        apply leading_timestamps_in in Hin as (key & Hk & Hp);
        apply leading_timestamps_in; exists key; split; [now apply Hincl | exact Hp]).
  destruct (leading_timestamps contents') as [|t1 ts']; [destruct Hin|].
  eexists. split; [reflexivity|].
  destruct (py_max_ge t1 ts') as [H1 H2].
  destruct Hin as [<-|Hin]; [exact H1 | now apply H2].
Qed.

Lemma watermark_same_keys (contents contents' : list string) :
  incl contents contents' -> incl contents' contents ->
  watermark_of contents = watermark_of contents'.
Proof.
  intros H1 H2.
  destruct (watermark_of contents) as [t|] eqn:Ht, (watermark_of contents') as [t'|] eqn:Ht'.
  - destruct (watermark_grows _ _ t H1 Ht) as (x & Hx & Hle). rewrite Ht' in Hx.
    destruct (watermark_grows _ _ t' H2 Ht') as (y & Hy & Hle'). rewrite Ht in Hy.
    injection Hx as <-. injection Hy as <-. f_equal. lia.
  - destruct (watermark_grows _ _ t H1 Ht) as (x & Hx & _). congruence.
  - destruct (watermark_grows _ _ t' H2 Ht') as (x & Hx & _). congruence.
  - reflexivity.
Qed.

(** X11. Listing more keys never lowers the watermark: if the keys
    listed at one time are among those listed at another, a watermark
    found at the first is at most the one found at the second. *)
Theorem get_latest_timestamp_monotone (channel_id channel_name : string)
    (tr tr' : Trace) (contents contents' : list string) (t : Z) (tr1 : Trace) :
  list_objects_v2 tr bucket_name (key_prefix_of channel_name channel_id) = Some contents ->
  list_objects_v2 tr' bucket_name (key_prefix_of channel_name channel_id) = Some contents' ->
  incl contents contents' ->
  get_latest_timestamp channel_id channel_name tr = Returned (Some t) tr1 ->
  exists t',
    get_latest_timestamp channel_id channel_name tr'
    = Returned (Some t')
        (tr' ++ [EvListObjects bucket_name (key_prefix_of channel_name channel_id)])%list
    /\ (t <= t')%Z.
Proof.
  intros Hl Hl' Hincl. rewrite !get_latest_timestamp_eq, Hl, Hl'.
  intros [= Ht _].
  destruct (watermark_grows contents contents' t Hincl Ht) as (t' & Ht' & Hle).
  exists t'. now rewrite Ht'.
Qed.

(** X12. The watermark depends only on which keys are listed, not on
    their order or number of occurrences. *)
Theorem get_latest_timestamp_same_keys (channel_id channel_name : string)
    (tr tr' : Trace) (contents contents' : list string) :
  list_objects_v2 tr bucket_name (key_prefix_of channel_name channel_id) = Some contents ->
  list_objects_v2 tr' bucket_name (key_prefix_of channel_name channel_id) = Some contents' ->
  (forall key, In key contents <-> In key contents') ->
  exists watermark,
    get_latest_timestamp channel_id channel_name tr
    = Returned watermark
        (tr ++ [EvListObjects bucket_name (key_prefix_of channel_name channel_id)])%list
    /\ get_latest_timestamp channel_id channel_name tr'
       = Returned watermark
           (tr' ++ [EvListObjects bucket_name (key_prefix_of channel_name channel_id)])%list.
Proof.
  intros Hl Hl' Hsame. rewrite !get_latest_timestamp_eq, Hl, Hl'.
  exists (watermark_of contents). split; [reflexivity|].
  f_equal. symmetry. apply watermark_same_keys; intros key Hk; now apply Hsame.
Qed.

End WatermarkMore.

Lemma get_latest_timestamp_monotone_witness :
  let P := live_platform [] (fun _ => []) in
  let tr := [stored "slack_history/general/C1/2000_b.json"] in
  let tr' := [stored "slack_history/general/C1/1000_a.json";
              stored "slack_history/general/C1/2000_b.json";
              stored "slack_history/general/C1/3000_c.json"] in
  exists t',
    get_latest_timestamp "C1" "general" tr'
    = Returned (Some t') (tr' ++ [EvListObjects "bucket" "slack_history/general/C1/"])%list
    /\ (2000 <= t')%Z.
Proof.
  intros P tr tr'.
  refine (get_latest_timestamp_monotone "C1" "general" tr tr' _ _ 2000 _
            eq_refl eq_refl _ eq_refl).
  intros key [<-|[]]. right. left. reflexivity.
Defined.

Lemma get_latest_timestamp_same_keys_witness :
  let P := live_platform [] (fun _ => []) in
  let tr := [stored "slack_history/general/C1/1000_a.json";
             stored "slack_history/general/C1/2000_b.json"] in
  let tr' := [stored "slack_history/general/C1/2000_b.json";
              stored "slack_history/general/C1/1000_a.json";
              stored "slack_history/general/C1/2000_b.json"] in
  exists watermark,
    get_latest_timestamp "C1" "general" tr
    = Returned watermark (tr ++ [EvListObjects "bucket" "slack_history/general/C1/"])%list
    /\ get_latest_timestamp "C1" "general" tr'
       = Returned watermark (tr' ++ [EvListObjects "bucket" "slack_history/general/C1/"])%list.
Proof.
  intros P tr tr'.
  refine (get_latest_timestamp_same_keys "C1" "general" tr tr' _ _ eq_refl eq_refl _).
  intros key. vm_compute. tauto.
Defined.

(** ** More on the history paginator *)

Section PaginatorMore.

Context {P : Platform}.
Variable channel_id : string.
Variable start_time : option Z.

Lemma history_params_well_formed (latest_ts : float) :
  well_formed_request channel_id start_time
    (history_params channel_id start_time latest_ts).
Proof. repeat split. Qed.

Lemma responses_history (before : Trace) (params : HistoryParams) (rest : Trace) :
  responses before (EvHistory params :: rest)
  = conversations_history before params :: responses (before ++ [EvHistory params])%list rest.
Proof. reflexivity. Qed.

(** Everything the loop does, read off its outcome. *)
Lemma history_loop_run (fuel : nat) :
  forall (latest_ts : float) (msgs : list Message) (tr : Trace),
    match history_loop fuel channel_id start_time latest_ts msgs tr with
    | Returned msgs' tr' =>
        exists calls,
          tr' = (tr ++ map EvHistory calls)%list
          /\ Forall (well_formed_request channel_id start_time) calls
          /\ let pages := responses tr (map EvHistory calls) in
             msgs' = (msgs ++ List.concat (map messages pages))%list
             /\ List.length pages = List.length calls
             /\ Forall (fun page => has_more page = true) (removelast pages)
             /\ option_map has_more (last_item pages) = Some false
    | Raised e tr' =>
        exists calls,
          tr' = (tr ++ map EvHistory calls)%list
          /\ Forall (well_formed_request channel_id start_time) calls
    | OutOfFuel => True
    end.
Proof.
  induction fuel as [|fuel IH]; intros latest_ts msgs tr; [exact I|].
  rewrite history_loop_step.
  set (params := history_params channel_id start_time latest_ts).
  set (page := conversations_history tr params).
  destruct (has_more page) eqn:Hmore.
  - destruct (last_item (messages page)) as [m|].
    + specialize (IH (py_float (ts m)) (msgs ++ messages page)%list
                    (tr ++ [EvHistory params])%list).
      destruct (history_loop fuel _ _ _ _ _) as [msgs' tr'|e tr'|]; [| |exact I].
      * destruct IH as (calls & Htr & Hwf & Hmsgs & Hlen & Hinit & Hlast).
        exists (params :: calls). cbn [map]. rewrite responses_history. fold page.
        split; [now rewrite Htr, <- app_assoc|].
        split; [constructor; [apply history_params_well_formed | exact Hwf]|].
        cbn zeta in *. cbn [map List.concat List.length].
        split; [now rewrite Hmsgs, <- app_assoc|].
        split; [now rewrite Hlen|].
        destruct (responses (tr ++ [EvHistory params])%list (map EvHistory calls))
          as [|page' pages']; [discriminate Hlast|].
        split; [constructor; [exact Hmore | exact Hinit] | exact Hlast].
      * destruct IH as (calls & Htr & Hwf).
        exists (params :: calls). cbn [map].
        split; [now rewrite Htr, <- app_assoc|].
        constructor; [apply history_params_well_formed | exact Hwf].
    + exists [params]. split; [reflexivity|].
      constructor; [apply history_params_well_formed | constructor].
  - exists [params]. cbn [map]. rewrite responses_history. fold page.
    cbn [responses]. split; [reflexivity|].
    split; [constructor; [apply history_params_well_formed | constructor]|].
    cbn zeta. cbn [map List.concat List.length removelast last_item option_map].
    rewrite app_nil_r, Hmore. repeat split. constructor.
Qed.

Lemma fetch_history_pages_run (fuel : nat) (tr tr' : Trace) :
  ended (fetch_history_pages fuel channel_id start_time tr) tr' ->
  exists calls,
    tr' = (tr ++ EvNow :: map EvHistory calls)%list
    /\ Forall (well_formed_request channel_id start_time) calls.
Proof.
  unfold fetch_history_pages.
  pose proof (history_loop_run fuel (now_timestamp tr) [] (tr ++ [EvNow])%list) as H.
  intros [[msgs Hend]|[e Hend]]; rewrite Hend in H.
  - destruct H as (calls & -> & Hwf & _). exists calls.
    split; [now rewrite <- app_assoc | exact Hwf].
  - destruct H as (calls & -> & Hwf). exists calls.
    split; [now rewrite <- app_assoc | exact Hwf].
Qed.

(** X13. Whether the paginator returns or raises, it has added to the
    trace one reading of the clock followed by history calls only, and
    every call asks for the given channel, with a limit of 1000 and with
    [oldest] set to the text of [start_time], or left out when
    [start_time] is [None] or zero. *)
Theorem fetch_history_pages_requests (fuel : nat) (tr tr' : Trace) :
  ended (fetch_history_pages fuel channel_id start_time tr) tr' ->
  exists calls,
    tr' = (tr ++ EvNow :: map EvHistory calls)%list
    /\ Forall (fun params =>
                 channel params = channel_id /\ limit params = 1000%Z
                 /\ oldest params = match start_time with
                                    | Some t => if Z.eqb t 0 then None else Some (str_int t)
                                    | None => None
                                    end) calls.
Proof. exact (fetch_history_pages_run fuel tr tr'). Qed.

(** X14. What the paginator returns is the concatenation, in the order
    received, of the messages of the pages that its calls were answered
    with; every page but the last reported a further page, the last one
    did not. *)
Theorem fetch_history_pages_concatenates (fuel : nat) (tr tr' : Trace)
    (msgs : list Message) :
  fetch_history_pages fuel channel_id start_time tr = Returned msgs tr' ->
  exists added,
    tr' = (tr ++ EvNow :: added)%list
    /\ let pages := responses (tr ++ [EvNow])%list added in
       msgs = List.concat (map messages pages)
       /\ List.length (history_calls tr') = List.length (history_calls tr) + List.length pages
       /\ Forall (fun page => has_more page = true) (removelast pages)
       /\ option_map has_more (last_item pages) = Some false.
Proof.
  unfold fetch_history_pages. intros Hret.
  pose proof (history_loop_run fuel (now_timestamp tr) [] (tr ++ [EvNow])%list) as H.
  rewrite Hret in H. destruct H as (calls & -> & _ & Hmsgs & Hlen & Hinit & Hlast).
  exists (map EvHistory calls). split; [now rewrite <- app_assoc|].
  cbn zeta. split; [exact Hmsgs|]. split; [|split; assumption].
  rewrite Hlen, !history_calls_app. cbn [history_calls app].
  rewrite !List.length_app. cbn [List.length].
  assert (Hcalls : forall l, history_calls (map EvHistory l) = l)
    by (intros l; induction l as [|p l IHl]; cbn [map history_calls]; congruence).
  rewrite Hcalls. lia.
Qed.

(** X15. The loop has no other way out: when every page reports a
    further page and holds a message, no number of iterations makes the
    paginator return or raise. *)
Theorem fetch_history_pages_endless (fuel : nat) (tr : Trace) :
  (forall tr0 params, has_more (conversations_history tr0 params) = true) ->
  (forall tr0 params, messages (conversations_history tr0 params) <> []) ->
  fetch_history_pages fuel channel_id start_time tr = OutOfFuel.
Proof.
  intros Hmore Hsome. unfold fetch_history_pages.
  generalize (now_timestamp tr) (@nil Message) (tr ++ [EvNow])%list.
  induction fuel as [|fuel IH]; intros latest_ts msgs tr0; [reflexivity|].
  rewrite history_loop_step, Hmore.
  destruct (last_item _) as [m|] eqn:Hlast; [apply IH|].
  exfalso. apply (Hsome tr0 (history_params channel_id start_time latest_ts)).
  destruct (messages _) as [|m0 rest]; [reflexivity|].
  exfalso. clear - Hlast. revert m0 Hlast.
  induction rest as [|x rest IHr]; intros m0 Hlast; [discriminate|].
  exact (IHr x Hlast).
Qed.

End PaginatorMore.

Lemma fetch_history_pages_requests_witness :
  let P := Script.platform Script.two_pages (Script.thread_of []) None in
  exists calls,
    [EvNow;
     EvHistory {| channel := "C1"; limit := 1000; latest := "1700000000.0";
                  oldest := Some "1600000000" |};
     EvHistory {| channel := "C1"; limit := 1000; latest := "1";
                  oldest := Some "1600000000" |}]
    = ([] ++ EvNow :: map EvHistory calls)%list
    /\ Forall (fun params =>
                 channel params = "C1" /\ limit params = 1000%Z
                 /\ oldest params = Some "1600000000") calls.
Proof.
  intros P.
  refine (fetch_history_pages_requests "C1" (Some 1600000000%Z) 3 [] _ _).
  left. eexists. reflexivity.
Defined.

Lemma fetch_history_pages_concatenates_witness :
  let P := Script.platform Script.two_pages (Script.thread_of []) None in
  exists added,
    [EvNow;
     EvHistory {| channel := "C1"; limit := 1000; latest := "1700000000.0"; oldest := None |};
     EvHistory {| channel := "C1"; limit := 1000; latest := "1"; oldest := None |}]
    = ([] ++ EvNow :: added)%list
    /\ let pages := responses ([] ++ [EvNow])%list added in
       [Script.msg "30" None None; Script.root1; Script.msg "0" None None]
       = List.concat (map messages pages)
       /\ 2 = 0 + List.length pages
       /\ Forall (fun page => has_more page = true) (removelast pages)
       /\ option_map has_more (last_item pages) = Some false.
Proof.
  intros P.
  exact (fetch_history_pages_concatenates "C1" None 3 [] _ _ eq_refl).
Defined.

Lemma fetch_history_pages_endless_witness :
  @fetch_history_pages endless_platform 1000 "C1" None [] = OutOfFuel.
Proof.
  apply (@fetch_history_pages_endless endless_platform "C1" None 1000 []).
  - intros tr0 params. reflexivity.
  - intros tr0 params. discriminate.
Defined.

(** ** More on the thread reconstructor *)

Section ReconstructorMore.

Context {P : Platform}.
Variable channel_id : string.
Variable users : Users.

Lemma reply_calls_app (a b : Trace) :
  reply_calls (a ++ b)%list = (reply_calls a ++ reply_calls b)%list.
Proof.
  induction a as [|e a IH]; [reflexivity|].
  destruct e; cbn [app reply_calls]; now rewrite IH.
Qed.

Lemma structure_messages_trace (msgs : list Message) (tr : Trace) :
  snd (structure_messages channel_id users msgs tr)
  = (tr ++ map (reply_fetch channel_id) (filter emits msgs))%list.
Proof.
  revert tr. induction msgs as [|m msgs IH]; intros tr.
  - cbn. now rewrite app_nil_r.
  - rewrite structure_messages_cons. cbn [filter].
    destruct (emits m); [|apply IH].
    cbn [snd map]. rewrite IH, <- app_assoc. reflexivity.
Qed.

Lemma structure_messages_count (msgs : list Message) (tr : Trace) :
  List.length (fst (structure_messages channel_id users msgs tr))
  = List.length (filter emits msgs).
Proof.
  revert tr. induction msgs as [|m msgs IH]; intros tr; [reflexivity|].
  rewrite structure_messages_cons. cbn [filter].
  destruct (emits m); [|apply IH].
  cbn [fst List.length]. now rewrite IH.
Qed.

(** X16. The reconstructor only adds reply fetches to the trace: one
    for each Topic it builds, for the timestamp of the Topic's root, in
    scan order. *)
Theorem structure_messages_reply_fetches (msgs : list Message) (tr : Trace) :
  snd (structure_messages channel_id users msgs tr)
  = (tr ++ map (fun m => EvReplies channel_id (ts m)) (filter emits msgs))%list
  /\ List.length (fst (structure_messages channel_id users msgs tr))
     = List.length (filter emits msgs).
Proof. split; [apply structure_messages_trace | apply structure_messages_count]. Qed.

(** X17. Every Topic has a first entry, whose text is the Topic's text,
    and as many entries as the fetched reply list has items, but at least
    one: a root whose reply fetch returns nothing still gives a Topic of
    one entry. *)
Theorem structure_messages_entries (msgs : list Message) (tr : Trace) :
  Forall (fun t =>
            (exists first rest,
                topic_messages t = first :: rest /\ tm_text first = topic t)
            /\ exists m tr0,
                 In m msgs /\ emits m = true
                 /\ List.length (topic_messages t)
                    = Nat.max 1 (List.length (conversations_replies tr0 channel_id (ts m))))
         (fst (structure_messages channel_id users msgs tr)).
Proof.
  revert tr. induction msgs as [|m msgs IH]; intros tr; [constructor|].
  rewrite structure_messages_cons.
  assert (Hrest : forall tr1,
             Forall (fun t =>
                       (exists first rest,
                           topic_messages t = first :: rest /\ tm_text first = topic t)
                       /\ exists m0 tr0,
                            In m0 (m :: msgs) /\ emits m0 = true
                            /\ List.length (topic_messages t)
                               = Nat.max 1 (List.length
                                              (conversations_replies tr0 channel_id (ts m0))))
                    (fst (structure_messages channel_id users msgs tr1))).
  { intros tr1. eapply Forall_impl; [|apply IH].
    intros t [Hfirst (m0 & tr0 & Hin & H)]. split; [exact Hfirst|].
    exists m0, tr0. split; [now right | exact H]. }
  destruct (emits m) eqn:Hm; [|apply Hrest].
  cbn [fst]. constructor; [|apply Hrest].
  split.
  - eexists _, _. split; reflexivity.
  - exists m, tr. split; [now left|]. split; [exact Hm|].
    unfold thread_topic, fetch_thread_replies. cbn [topic_messages fst List.length].
    rewrite length_map, tl_map, length_map.
    destruct (conversations_replies tr channel_id (ts m)); cbn [tl List.length]; lia.
Qed.

Lemma history_calls_replies (roots : list Message) :
  history_calls (map (reply_fetch channel_id) roots) = [].
Proof. induction roots as [|m roots IH]; [reflexivity | exact IH]. Qed.

Lemma puts_replies (roots : list Message) :
  puts (map (reply_fetch channel_id) roots) = [].
Proof. induction roots as [|m roots IH]; [reflexivity | exact IH]. Qed.

Lemma puts_history (calls : list HistoryParams) : puts (map EvHistory calls) = [].
Proof. induction calls as [|p calls IH]; [reflexivity | exact IH]. Qed.

Lemma reply_calls_history (calls : list HistoryParams) :
  reply_calls (map EvHistory calls) = [].
Proof. induction calls as [|p calls IH]; [reflexivity | exact IH]. Qed.

Lemma history_calls_map (calls : list HistoryParams) :
  history_calls (map EvHistory calls) = calls.
Proof. induction calls as [|p calls IH]; cbn [map history_calls]; congruence. Qed.

(** The whole of a run of [fetch_channel_history], read off its
    outcome. *)
Lemma fetch_channel_history_run (fuel : nat) (start_time : option Z) (tr : Trace) :
  match fetch_channel_history fuel channel_id users start_time tr with
  | Returned topics tr' =>
      exists calls msgs,
        fetch_history_pages fuel channel_id start_time tr
        = Returned msgs (tr ++ EvNow :: map EvHistory calls)%list
        /\ Forall (well_formed_request channel_id start_time) calls
        /\ tr' = (tr ++ EvNow :: map EvHistory calls
                    ++ map (reply_fetch channel_id) (filter emits msgs))%list
        /\ topics = fst (structure_messages channel_id users msgs
                           (tr ++ EvNow :: map EvHistory calls)%list)
  | Raised e tr' =>
      exists calls,
        fetch_history_pages fuel channel_id start_time tr = Raised e tr'
        /\ Forall (well_formed_request channel_id start_time) calls
        /\ tr' = (tr ++ EvNow :: map EvHistory calls)%list
  | OutOfFuel => fetch_history_pages fuel channel_id start_time tr = OutOfFuel
  end.
Proof.
  unfold fetch_channel_history.
  destruct (fetch_history_pages fuel channel_id start_time tr) as [msgs tr1|e tr1|] eqn:Hp;
    [| |reflexivity].
  - destruct (fetch_history_pages_run channel_id start_time fuel tr tr1)
      as (calls & -> & Hwf); [left; now exists msgs|].
    destruct (structure_messages channel_id users msgs _) as [topics tr'] eqn:Hs.
    exists calls, msgs. split; [reflexivity|]. split; [exact Hwf|].
    pose proof (structure_messages_trace msgs (tr ++ EvNow :: map EvHistory calls)%list) as Ht.
    rewrite Hs in *. cbn [fst snd] in *. split; [|reflexivity].
    rewrite Ht, <- app_assoc. reflexivity.
  - destruct (fetch_history_pages_run channel_id start_time fuel tr tr1)
      as (calls & -> & Hwf); [right; now exists e|].
    exists calls. now split.
Qed.

(** X18. [fetch_channel_history] pages through the whole history before
    it fetches any thread: what it adds to the trace is one reading of
    the clock, then the history calls, then one reply fetch per Topic it
    returns; when the pagination raises, no reply has been fetched. *)
Theorem fetch_channel_history_order (fuel : nat) (start_time : option Z) (tr tr' : Trace) :
  (forall topics,
      fetch_channel_history fuel channel_id users start_time tr = Returned topics tr' ->
      exists calls roots,
        tr' = (tr ++ EvNow :: map EvHistory calls
                  ++ map (fun m => EvReplies channel_id (ts m)) roots)%list
        /\ List.length roots = List.length topics)
  /\ (forall e,
        fetch_channel_history fuel channel_id users start_time tr = Raised e tr' ->
        reply_calls tr' = reply_calls tr
        /\ exists calls, tr' = (tr ++ EvNow :: map EvHistory calls)%list).
Proof.
  pose proof (fetch_channel_history_run fuel start_time tr) as H. split.
  - intros topics Hret. rewrite Hret in H.
    destruct H as (calls & msgs & _ & _ & -> & ->).
    exists calls, (filter emits msgs). split; [reflexivity|].
    symmetry. apply structure_messages_count.
  - intros e Hraise. rewrite Hraise in H. destruct H as (calls & _ & _ & ->).
    split; [|now exists calls].
    rewrite reply_calls_app. cbn [reply_calls]. rewrite reply_calls_history.
    apply app_nil_r.
Qed.

End ReconstructorMore.

(** ** The run *)

Section Run.

Context {P : Platform} {D : Directory}.

Lemma lower_bound_truthy (latest_ts : option Z) :
  lower_bound (truthy latest_ts) = lower_bound latest_ts.
Proof.
  destruct latest_ts as [t|]; [|reflexivity]. cbn [truthy lower_bound].
  destruct (Z.eqb t 0) eqn:Ht; [reflexivity|]. cbn [lower_bound]. now rewrite Ht.
Qed.

Lemma archive_channel_eq (fuel : nat) (users : Users) (channel_id channel_name : string)
    (tr : Trace) :
  archive_channel fuel users channel_id channel_name tr
  = match fetch_channel_history fuel channel_id users
            (truthy (resolved_watermark channel_id channel_name tr))
            (tr ++ [EvListObjects bucket_name (key_prefix_of channel_name channel_id)])%list
    with
    | Returned history tr1 => Finished (save_to_s3 history channel_id channel_name tr1)
    | Raised e tr1 => Failed (Uncaught e) tr1
    | OutOfFuel => Unfinished
    end.
Proof. unfold archive_channel. now rewrite get_latest_timestamp_eq. Qed.

(** A request that carries the watermark of a channel as lower bound. *)
Let resumes (channel_id channel_name : string) (tr : Trace) (params : HistoryParams) : Prop :=
  channel params = channel_id /\ limit params = 1000%Z
  /\ oldest params = lower_bound (resolved_watermark channel_id channel_name tr).

Lemma resumes_of_well_formed (channel_id channel_name : string) (tr : Trace)
    (calls : list HistoryParams) :
  Forall (well_formed_request channel_id
            (truthy (resolved_watermark channel_id channel_name tr))) calls ->
  Forall (resumes channel_id channel_name tr) calls.
Proof.
  apply Forall_impl. intros params (Hc & Hl & Ho). repeat split; try assumption.
  now rewrite Ho, lower_bound_truthy.
Qed.

(** The whole of what [main] does for the target channel, read off the
    outcome. *)
Lemma archive_channel_run (fuel : nat) (users : Users) (channel_id channel_name : string)
    (tr : Trace) :
  let listed := EvListObjects bucket_name (key_prefix_of channel_name channel_id) in
  match archive_channel fuel users channel_id channel_name tr with
  | Finished tr' =>
      exists calls roots requests,
        tr' = (tr ++ listed :: EvNow :: map EvHistory calls
                  ++ map (reply_fetch channel_id) roots
                  ++ flat_map flush_events requests)%list
        /\ Forall (resumes channel_id channel_name tr) calls
        /\ Forall (fun request => exists batch tr0,
                       request = put_request channel_id channel_name batch tr0) requests
  | Failed e tr' =>
      exists calls,
        e = Uncaught IndexError
        /\ tr' = (tr ++ listed :: EvNow :: map EvHistory calls)%list
        /\ Forall (resumes channel_id channel_name tr) calls
  | Unfinished => True
  end.
Proof.
  intros listed. rewrite archive_channel_eq. fold listed.
  pose proof (fetch_channel_history_run channel_id users fuel
                (truthy (resolved_watermark channel_id channel_name tr))
                (tr ++ [listed])%list) as H.
  destruct (fetch_channel_history fuel channel_id users _ _) as [history tr1|e tr1|];
    [| |exact I].
  - destruct H as (calls & msgs & _ & Hwf & -> & _).
    destruct (save_to_s3_trace channel_id channel_name history
                ((tr ++ [listed]) ++ EvNow :: map EvHistory calls
                   ++ map (reply_fetch channel_id) (filter emits msgs))%list)
      as (requests & Htrace & Hreq).
    exists calls, (filter emits msgs), requests.
    split; [|split; [now apply resumes_of_well_formed | exact Hreq]].
    rewrite Htrace, <- !app_assoc. cbn [app]. now rewrite <- !app_assoc.
  - destruct H as (calls & _ & Hwf & ->).
    exists calls. split; [now destruct e|].
    split; [now rewrite <- app_assoc | now apply resumes_of_well_formed].
Qed.

(** X19. For the target channel the run first lists the archive, and
    every history call it then makes carries the watermark found there as
    [oldest], or no [oldest] when there is no watermark or it is zero. *)
Theorem archive_channel_resumes (fuel : nat) (users : Users)
    (channel_id channel_name : string) (tr tr' : Trace) :
  stopped_at (archive_channel fuel users channel_id channel_name tr) tr' ->
  exists rest calls,
    tr' = (tr ++ EvListObjects bucket_name
                   ("slack_history/" ++ channel_name ++ "/" ++ channel_id ++ "/") :: rest)%list
    /\ history_calls tr' = (history_calls tr ++ calls)%list
    /\ Forall (fun params =>
                 channel params = channel_id
                 /\ oldest params
                    = match resolved_watermark channel_id channel_name tr with
                      | Some t => if Z.eqb t 0 then None else Some (str_int t)
                      | None => None
                      end) calls.
Proof.
  pose proof (archive_channel_run fuel users channel_id channel_name tr) as H.
  cbn zeta in H.
  intros [Hend|[e Hend]]; rewrite Hend in H.
  - destruct H as (calls & roots & requests & -> & Hres & _).
    eexists _, calls. split; [reflexivity|]. split.
    + rewrite !history_calls_app. cbn [history_calls]. rewrite !history_calls_app.
      now rewrite history_calls_map, history_calls_replies, history_calls_flush, !app_nil_r.
    + eapply Forall_impl; [|exact Hres]. now intros params (Hc & _ & Ho).
  - destruct H as (calls & _ & -> & Hres).
    eexists _, calls. split; [reflexivity|]. split.
    + rewrite !history_calls_app. cbn [history_calls]. now rewrite history_calls_map.
    + eapply Forall_impl; [|exact Hres]. now intros params (Hc & _ & Ho).
Qed.


(** X21. Channels that the caller is no member of, or that are not the
    target, are passed over: when no listed channel is both, the run
    finishes without a single call to the history or the storage. *)
Theorem main_without_target (fuel : nat) (tr : Trace) (target : string) :
  SLACK_CHANNEL_ID = Some target ->
  (forall c, In c (conversations_list tr) -> is_member c = true -> chan_id c <> target) ->
  main fuel tr = Finished tr.
Proof.
  intros Henv. unfold main. generalize (fetch_users tr) as users.
  induction (conversations_list tr) as [|c channels IH]; intros users Hnone; [reflexivity|].
  cbn [main_loop]. rewrite Henv.
  destruct (is_member c) eqn:Hm.
  - destruct (String.eqb_spec (chan_id c) target) as [Heq|_].
    + exfalso. exact (Hnone c (or_introl eq_refl) Hm Heq).
    + apply IH. intros c' Hin. apply Hnone. now right.
  - apply IH. intros c' Hin. apply Hnone. now right.
Qed.

(** X22. When [SLACK_CHANNEL_ID] is not set, the run raises [KeyError]
    as soon as it meets a channel the caller is a member of, before any
    call for a channel, and finishes quietly when there is no such
    channel. *)
Theorem main_without_environment (fuel : nat) (tr : Trace) :
  SLACK_CHANNEL_ID = None ->
  main fuel tr
  = if existsb is_member (conversations_list tr) then Failed KeyError tr else Finished tr.
Proof.
  intros Henv. unfold main. generalize (fetch_users tr) as users.
  induction (conversations_list tr) as [|c channels IH]; intros users; [reflexivity|].
  cbn [main_loop existsb]. rewrite Henv.
  destruct (is_member c); [reflexivity | apply IH].
Qed.

Lemma main_loop_puts (fuel : nat) (users : Users) (channels : list Channel) :
  forall tr tr',
    stopped_at (main_loop fuel users channels tr) tr' ->
    forall request,
      In request (puts tr') ->
      In request (puts tr)
      \/ (Bucket request = bucket_name
          /\ exists c, In c channels /\ is_member c = true
                       /\ SLACK_CHANNEL_ID = Some (chan_id c)
                       /\ PyStr.startswith (key_prefix_of (name_of c) (chan_id c))
                                           (Key request) = true).
Proof.
  induction channels as [|c channels IH]; intros tr tr' Hstop request Hin.
  - left. destruct Hstop as [[= <-]|[e [=]]]. exact Hin.
  - assert (Hskip : stopped_at (main_loop fuel users channels tr) tr' ->
                    In request (puts tr)
                    \/ (Bucket request = bucket_name
                        /\ exists c0, In c0 (c :: channels) /\ is_member c0 = true
                                      /\ SLACK_CHANNEL_ID = Some (chan_id c0)
                                      /\ PyStr.startswith
                                           (key_prefix_of (name_of c0) (chan_id c0))
                                           (Key request) = true)).
    { intros Hs. destruct (IH tr tr' Hs request Hin) as [Hold|(Hb & c0 & Hc0 & H)];
        [now left | right]. split; [exact Hb|]. exists c0. split; [now right | exact H]. }
    cbn [main_loop] in Hstop.
    destruct (is_member c) eqn:Hm; [|now apply Hskip].
    destruct SLACK_CHANNEL_ID as [target|] eqn:Henv.
    + destruct (String.eqb_spec (chan_id c) target) as [Heq|_]; [|now apply Hskip].
      fold (name_of c) in Hstop.
      pose proof (archive_channel_run fuel users (chan_id c) (name_of c) tr) as Hrun.
      cbn zeta in Hrun.
      destruct (archive_channel fuel users (chan_id c) (name_of c) tr) as [tr1|e tr1|].
      * destruct Hrun as (calls & roots & requests & Htr1 & _ & Hreq).
        destruct (IH tr1 tr' Hstop request Hin) as [Hold|(Hb & c0 & Hc0 & H)].
        -- rewrite Htr1 in Hold. rewrite puts_app in Hold. cbn [puts] in Hold.
           rewrite !puts_app, puts_history, puts_replies, puts_flush in Hold.
           cbn [app] in Hold. apply in_app_or in Hold as [Hold|Hnew]; [now left | right].
           rewrite Forall_forall in Hreq. destruct (Hreq request Hnew) as (batch & tr0 & ->).
           split; [reflexivity|]. exists c. split; [now left|]. split; [exact Hm|].
           split; [now rewrite Heq|].
           cbn [put_request Key]. rewrite generate_file_name_key. apply file_key_prefix.
        -- right. split; [exact Hb|]. exists c0. split; [now right | exact H].
      * left. destruct Hstop as [[=]|[e' [= _ <-]]].
        destruct Hrun as (calls & _ & Htr1 & _). rewrite Htr1 in Hin.
        rewrite puts_app in Hin. cbn [puts] in Hin.
        now rewrite puts_history, app_nil_r in Hin.
      * destruct Hstop as [[=]|[e' [=]]].
    + left. destruct Hstop as [[=]|[e' [= _ <-]]]. exact Hin.
Qed.

(** X23. Whatever a run of [main] writes goes to the configured bucket
    under the key prefix of a listed channel that the caller is a member
    of and that is the target. *)
Theorem main_writes_target_only (fuel : nat) (tr tr' : Trace) (request : PutRequest) :
  stopped_at (main fuel tr) tr' ->
  In request (puts tr') ->
  In request (puts tr)
  \/ (Bucket request = bucket_name
      /\ exists c, In c (conversations_list tr) /\ is_member c = true
                   /\ SLACK_CHANNEL_ID = Some (chan_id c)
                   /\ PyStr.startswith
                        ("slack_history/" ++ name_of c ++ "/" ++ chan_id c ++ "/")
                        (Key request) = true).
Proof.
  intros Hstop Hin.
  exact (main_loop_puts fuel (fetch_users tr) (conversations_list tr) tr tr' Hstop request Hin).
Qed.

End Run.

(** ** Writing, then resolving *)

Section RoundTrip.

Context {P : Platform}.
Variable channel_id : string.
Variable channel_name : string.

Lemma watermark_at_least (contents : list string) (key : string) (second : Z) :
  In key contents ->
  py_int (leading_segment key) = Some second ->
  exists t, watermark_of contents = Some t /\ (second <= t)%Z.
Proof.
  intros Hin Hint. unfold watermark_of.
  assert (Hs : In second (leading_timestamps contents))
    by (apply leading_timestamps_in; now exists key).
  destruct (leading_timestamps contents) as [|t0 ts]; [destruct Hs|].
  eexists. split; [reflexivity|].
  destruct (py_max_ge t0 ts) as [H1 H2].
  destruct Hs as [<-|Hs]; [exact H1 | now apply H2].
Qed.

Lemma stored_keys_in (tr : Trace) (request : PutRequest) :
  In request (puts tr) ->
  Bucket request = bucket_name ->
  PyStr.startswith (key_prefix_of channel_name channel_id) (Key request) = true ->
  In (Key request) (stored_keys tr bucket_name (key_prefix_of channel_name channel_id)).
Proof.
  intros Hin Hb Hk. unfold stored_keys. apply in_map, filter_In.
  split; [exact Hin|]. now rewrite Hb, String.eqb_refl, Hk.
Qed.

(** X24. With a storage that lists what was put, a digest without [/]
    and an [int] that reads back the decimal text of the capture seconds:
    once [save_to_s3] has written an object, [get_latest_timestamp] finds
    a watermark for the channel, and it is at least the capture second of
    every object of that run. *)
Theorem save_then_resolve (data : list Topic) (tr : Trace) :
  (forall tr0, list_objects_v2 tr0 bucket_name (key_prefix_of channel_name channel_id)
               = listing_of tr0 bucket_name (key_prefix_of channel_name channel_id)) ->
  (forall s, PyStr.contains "/" (md5_hexdigest s) = false) ->
  (forall tr0, py_int (str_int (int_float (now_timestamp tr0)))
               = Some (int_float (now_timestamp tr0))) ->
  data <> [] ->
  let tr' := save_to_s3 data channel_id channel_name tr in
  exists t requests,
    get_latest_timestamp channel_id channel_name tr'
    = Returned (Some t)
        (tr' ++ [EvListObjects bucket_name (key_prefix_of channel_name channel_id)])%list
    /\ puts tr' = (puts tr ++ requests)%list
    /\ requests <> []
    /\ Forall (fun request =>
                 exists second,
                   Key request = file_key channel_name channel_id second
                   /\ (second <= t)%Z) requests.
Proof.
  intros Hstore Hhash Hint Hdata tr'.
  destruct (save_to_s3_trace channel_id channel_name data tr) as (requests & Htrace & Hreq).
  assert (Hputs : puts tr' = (puts tr ++ requests)%list)
    by (unfold tr'; now rewrite Htrace, puts_app, puts_flush).
  assert (Hne : requests <> []).
  { intros ->.
    assert (Hchunk : exists requests',
               puts tr' = (puts tr ++ requests')%list
               /\ map Body requests' = map file_body (chunk [] data)).
    { destruct (save_loop_chunk channel_id channel_name data
                  {| total_size := 0; file_data := []; written := tr |})
        as (requests' & Hputs' & Hbodies & _); [reflexivity|].
      exists requests'. split; [exact Hputs' | exact Hbodies]. }
    destruct Hchunk as (requests' & Hputs' & Hbodies).
    rewrite Hputs in Hputs'. apply app_inv_head in Hputs'.
    subst requests'. cbn [map] in Hbodies.
    destruct (chunk [] data) eqn:Hc; [|discriminate].
    pose proof (chunk_concat data []) as Hcat. rewrite Hc in Hcat. cbn in Hcat.
    now apply Hdata. }
  rewrite Forall_forall in Hreq.
  assert (Hkey : forall request, In request requests ->
                   exists second,
                     Key request = file_key channel_name channel_id second
                     /\ In (Key request)
                           (stored_keys tr' bucket_name (key_prefix_of channel_name channel_id))
                     /\ py_int (leading_segment (Key request)) = Some second).
  { intros request Hin. destruct (Hreq request Hin) as (batch & tr0 & ->).
    exists (int_float (now_timestamp tr0)). cbn [put_request Key].
    rewrite generate_file_name_key. split; [reflexivity|]. split.
    - apply (stored_keys_in tr'
               (put_request channel_id channel_name batch tr0)).
      + rewrite Hputs. apply in_or_app. now right.
      + reflexivity.
      + cbn [put_request Key]. rewrite generate_file_name_key. apply file_key_prefix.
    - rewrite file_key_leading by apply Hhash. apply Hint. }
  rewrite get_latest_timestamp_eq, Hstore. unfold listing_of.
  destruct requests as [|r0 requests]; [congruence|].
  destruct (Hkey r0 (or_introl eq_refl)) as (s0 & _ & Hin0 & Hint0).
  destruct (stored_keys tr' bucket_name (key_prefix_of channel_name channel_id))
    as [|k keys] eqn:Hkeys; [destruct Hin0|].
  destruct (watermark_at_least (k :: keys) (Key r0) s0 Hin0 Hint0) as (t & Ht & _).
  exists t, (r0 :: requests). rewrite Ht. split; [reflexivity|].
  split; [exact Hputs|]. split; [exact Hne|].
  apply Forall_forall. intros request Hin.
  destruct (Hkey request Hin) as (s & Hk & Hin' & Hint').
  exists s. split; [exact Hk|].
  destruct (watermark_at_least (k :: keys) (Key request) s Hin' Hint') as (t' & Ht' & Hle).
  rewrite Ht in Ht'. now injection Ht' as <-.
Qed.

End RoundTrip.

Lemma live_storage :
  let P := live_platform [] (fun _ => []) in
  forall tr0, list_objects_v2 tr0 bucket_name (key_prefix_of "general" "C1")
              = listing_of tr0 bucket_name (key_prefix_of "general" "C1").
Proof. intros P tr0. reflexivity. Defined.

Lemma live_digest :
  let P := live_platform [] (fun _ => []) in
  forall s, PyStr.contains "/" (md5_hexdigest s) = false.
Proof. intros P s. reflexivity. Defined.

Lemma live_clock :
  let P := live_platform [] (fun _ => []) in
  forall tr0, py_int (str_int (int_float (now_timestamp tr0)))
              = Some (int_float (now_timestamp tr0)).
Proof. intros P tr0. reflexivity. Defined.

Lemma save_then_resolve_witness :
  let P := live_platform [] (fun _ => []) in
  let tr' := save_to_s3 [Script.kib_topic] "C1" "general" [] in
  exists t requests,
    get_latest_timestamp "C1" "general" tr'
    = Returned (Some t) (tr' ++ [EvListObjects "bucket" "slack_history/general/C1/"])%list
    /\ puts tr' = ([] ++ requests)%list
    /\ requests <> []
    /\ Forall (fun request =>
                 exists second,
                   Key request = file_key "general" "C1" second /\ (second <= t)%Z) requests.
Proof.
  intros P.
  refine (save_then_resolve "C1" "general" [Script.kib_topic] []
            live_storage live_digest live_clock _).
  discriminate.
Defined.

(** ** Runs on scripted inputs *)

Lemma fetch_channel_history_order_witness :
  let P := Script.platform Script.two_pages (Script.thread_of [Script.reply2]) None in
  exists calls roots,
    [EvNow;
     EvHistory {| channel := "C1"; limit := 1000; latest := "1700000000.0"; oldest := None |};
     EvHistory {| channel := "C1"; limit := 1000; latest := "1"; oldest := None |};
     EvReplies "C1" "1"]
    = ([] ++ EvNow :: map EvHistory calls
          ++ map (fun m => EvReplies "C1" (ts m)) roots)%list
    /\ List.length roots = 1.
Proof.
  intros P.
  exact (proj1 (fetch_channel_history_order "C1" [("U1", "alice")] 3 None [] _) _ eq_refl).
Defined.

Lemma archive_channel_resumes_witness :
  let P := live_platform Script.hollow_pages (fun _ => []) in
  let tr := [stored "slack_history/general/C1/1600000000_0cc1.json"] in
  let tr' := (tr ++ [EvListObjects "bucket" "slack_history/general/C1/"; EvNow;
                     EvHistory {| channel := "C1"; limit := 1000;
                                  latest := "1700000000.0";
                                  oldest := Some "1600000000" |}])%list in
  exists rest calls,
    tr' = (tr ++ EvListObjects "bucket" "slack_history/general/C1/" :: rest)%list
    /\ history_calls tr' = (history_calls tr ++ calls)%list
    /\ Forall (fun params =>
                 channel params = "C1" /\ oldest params = Some "1600000000") calls.
Proof.
  intros P tr tr'.
  refine (archive_channel_resumes 3 [] "C1" "general" tr tr' _).
  right. exists (Uncaught IndexError). reflexivity.
Defined.


Lemma main_without_target_witness :
  let P := live_platform Script.two_pages (fun _ => []) in
  let D := directory []
             [{| chan_id := "C1"; chan_name := Some "general"; is_member := false |};
              {| chan_id := "C2"; chan_name := Some "random"; is_member := true |}]
             (Some "C1") in
  main 3 [] = Finished [].
Proof.
  intros P D.
  refine (main_without_target 3 [] "C1" eq_refl _).
  intros c [<-|[<-|[]]]; cbn; discriminate.
Defined.

Lemma main_without_environment_witness :
  let P := live_platform Script.two_pages (fun _ => []) in
  let D := directory []
             [{| chan_id := "C1"; chan_name := Some "general"; is_member := false |};
              {| chan_id := "C2"; chan_name := Some "random"; is_member := true |}]
             None in
  main 3 [] = Failed KeyError [].
Proof.
  intros P D. exact (main_without_environment 3 [] eq_refl).
Defined.

Lemma main_writes_target_only_witness :
  let P := live_platform Script.two_pages (Script.thread_of [Script.reply2]) in
  let D := directory [{| member_id := "U1"; member_name := "alice" |}]
             [{| chan_id := "C2"; chan_name := Some "random"; is_member := true |};
              {| chan_id := "C1"; chan_name := Some "general"; is_member := true |}]
             (Some "C1") in
  exists tr',
    main 3 [] = Finished tr'
    /\ Forall (fun request =>
                 Bucket request = "bucket"
                 /\ PyStr.startswith "slack_history/general/C1/" (Key request) = true)
              (puts tr').
Proof.
  intros P D.
  pose proof (main_writes_target_only 3 []) as H.
  destruct (main 3 []) as [tr'|e tr'|] eqn:Hmain;
    [|vm_compute in Hmain; discriminate Hmain..].
  exists tr'. split; [reflexivity|].
  apply Forall_forall. intros request Hin.
  destruct (H tr' request (or_introl eq_refl) Hin)
    as [[]|(Hb & c & Hc & _ & Htarget & Hk)].
  split; [exact Hb|].
  destruct Hc as [<-|[<-|[]]]; [discriminate Htarget | exact Hk].
Defined.

(** Two runs in a row on a storage that lists what was put: the second
    run asks for the history from the capture second of the first and,
    served an empty page, writes nothing. *)
Example main_resumes_example :
  let P := live_platform [{| messages := [Script.root1]; has_more := false |}]
             (Script.thread_of [Script.reply2]) in
  let D := directory [{| member_id := "U1"; member_name := "alice" |}]
             [{| chan_id := "C1"; chan_name := Some "general"; is_member := true |}]
             (Some "C1") in
  match main 3 [] with
  | Finished tr1 =>
      match main 3 tr1 with
      | Finished tr2 =>
          map oldest (history_calls tr1) = [None]
          /\ map oldest (history_calls tr2) = [None; Some "1700000000"]
          /\ List.length (puts tr2) = 1
      | _ => False
      end
  | _ => False
  end.
Proof. vm_compute. repeat split. Qed.
